(** * MindBot VR browser client: a shallow embedding of its state engine

    The repository ships two builds of the same client:
    - [src/static/app.js]          (module [Main] below), and
    - [src/backend/static/app.js]  (module [Backend] below).

    JavaScript numbers are IEEE 754 binary64 values and are embedded as
    Rocq's primitive [float]; [Date.now()] readings are integral and are
    embedded as [Z]; [localStorage] is a finite map from keys to strings
    and [classList] is a finite set of class names. *)

From Stdlib Require Import ZArith Floats.
From stdpp Require Import base strings pretty list gmap.

Set Warnings "-inexact-float".
Local Open Scope Z_scope.

(** * JavaScript built-ins the client relies on *)
Module JS.

(** [!!s] for a string: only the empty string is falsy. *)
Definition truthy (s : string) : bool := negb (String.eqb s "").

(** [a || b] on strings. *)
Definition or_else (a b : string) : string := if truthy a then a else b.

(** [s.padStart(n, "0")]. *)
Definition padStart0 (n : nat) (s : string) : string :=
  String.concat "" (replicate (n - String.length s)%nat "0"%string) +:+ s.

(** [String(n)] for a non-negative integer such as [t.getHours()]. *)
Definition String_of_nat (n : nat) : string := pretty n.

(** [Number.isFinite(x)]. *)
Definition isFinite (x : float) : bool :=
  negb (is_nan x) && negb (is_infinity x).

(** A number used as a condition: [0], [-0] and [NaN] are falsy. *)
Definition truthy_num (x : float) : bool :=
  negb (is_nan x) && negb (is_zero x).

(** [Math.min(a, b)]: [NaN] is contagious and [-0] is below [+0]. *)
Definition Math_min (a b : float) : float :=
  if is_nan a || is_nan b then nan
  else if (a <? b)%float then a
  else if (b <? a)%float then b
  else if get_sign a then a else b.

(** [Number(String(x))]: the decimal rendering of a number reads back as
    the same number, except that [String(-0)] is ["0"]. *)
Definition Number_of_String (x : float) : float :=
  if is_zero x then 0%float else x.

(** ** [Number.prototype.toFixed]

    For a finite [x] below [10^21] in magnitude, ECMAScript picks the
    integer [n] for which [n / 10^f - x] is as close to zero as possible,
    the larger one when there are two; the real value of a finite
    binary64 number is [m * 2^e], so [n] is computed exactly in [Z]. *)
Definition round_half_up (num den : Z) : Z := (2 * num + den) / (2 * den).

Definition scaled_integer (m : positive) (e : Z) (f : nat) : Z :=
  let num := Z.pos m * 10 ^ Z.of_nat f in
  if 0 <=? e then num * 2 ^ e else round_half_up num (2 ^ (- e)).

(** The digits of [n], left-padded to at least [f + 1] characters, with a
    point before the last [f] of them. *)
Definition place_point (n : Z) (f : nat) : string :=
  let m := padStart0 (S f) (pretty (Z.to_N n)) in
  match f with
  | O => m
  | _ => let k := (String.length m - f)%nat in
         String.substring 0 k m +:+ "." +:+ String.substring k f m
  end.

Section ToFixed.
(** [Number::toString], used by [toFixed] only from [10^21] upwards
    (exponent notation), and by template literals. *)
Variable Number_toString : float -> string.

Definition toFixed (x : float) (f : nat) : string :=
  match Prim2SF x with
  | S754_nan => "NaN"
  | S754_infinity false => "Infinity"
  | S754_infinity true => "-Infinity"
  | S754_zero _ => place_point 0 f
  | S754_finite s m e =>
      if (1e21 <=? abs x)%float
      then (if s then "-" else "") +:+ Number_toString (abs x)
      else (if s then "-" else "") +:+ place_point (scaled_integer m e f) f
  end.
End ToFixed.

End JS.

(** * The numeric animator

    [animateNumber] is the same code in both builds
    (src/static/app.js:116-131, src/backend/static/app.js:57-72). *)
Module Animator.

(** A displayed field: [el.dataset.value] is absent or holds [String(x)]
    for the number [x] recorded here, and [el.textContent] is the text
    on screen. *)
Record Element := mkElement {
  dataset_value : option float;
  textContent : string;
}.

(** The variables the closure [frame] captures. *)
Record Tween := mkTween {
  current : float;
  target : float;
  start : float;
  decimals : nat;
}.

Definition duration : float := 420.

(** [Number(el.dataset.value || "0")]. *)
Definition read_value (el : Element) : float :=
  match dataset_value el with
  | Some x => JS.Number_of_String x
  | None => 0
  end.

(** [const t = Math.min(1, (now - start) / duration)]. *)
Definition progress (tw : Tween) (now : float) : float :=
  JS.Math_min 1 ((now - start tw) / duration).

Section Frames.
Variable Number_toString : float -> string.
(** [Math.pow] is implementation-approximated; ECMAScript fixes its
    value at a zero base: [Math.pow(+0, 3)] is [+0]. *)
Variable Math_pow : float -> float -> float.

(** The synchronous part of [animateNumber(el, nextValue, decimals)],
    run when [performance.now()] reads [perf_now]: the target is written
    to [el.dataset.value] and the closure is handed to
    [requestAnimationFrame]. *)
Definition animateNumber (el : Element) (nextValue : float) (d : nat)
    (perf_now : float) : Element * Tween :=
  let current := read_value el in
  let target := nextValue in
  ({| dataset_value := Some target; textContent := textContent el |},
   {| current := current; target := target; start := perf_now; decimals := d |}).

Definition eased (t : float) : float := (1 - Math_pow (1 - t) 3)%float.

(** One call of [frame(now)]: the text written, and whether the closure
    asks for another frame ([t < 1]). *)
Definition frame (tw : Tween) (now : float) (el : Element) : Element * bool :=
  let t := progress tw now in
  let v := (current tw + (target tw - current tw) * eased t)%float in
  ({| dataset_value := dataset_value el;
      textContent := JS.toFixed Number_toString v (decimals tw) |},
   (t <? 1)%float).

(** The browser calls [frame] at successive timestamps for as long as it
    re-registers itself; the flag tells whether the animation is over. *)
Fixpoint run_frames (tw : Tween) (nows : list float) (el : Element)
    : Element * bool :=
  match nows with
  | [] => (el, false)
  | now :: rest =>
      let '(el', again) := frame tw now el in
      if again then run_frames tw rest el' else (el', true)
  end.
End Frames.

End Animator.

(** * What the backend sends and what the page shows

    The payloads follow the interface of the backend: a field that every
    successful response carries ([session_id], [vitals], [reply],
    [nearest_hospital] of /api/sos) is a plain field, a field that may be
    missing is an [option]. *)
Module Api.

(** The outcome of [apiJson]: the parsed body, or the thrown [Error]'s
    message (the response text, or [HTTP <status>], or the fetch error). *)
Inductive Result (A : Type) : Type :=
| Ok (data : A)
| Err (message : string).
Arguments Ok {A} data.
Arguments Err {A} message.

Record Vitals := mkVitals {
  pulse_bpm : float;
  temperature_c : float;
  oxygen_percent : float;
  air_quality_ppm : float;
}.

(** A field that is missing from the JSON object is [None]. *)
Record Risk := mkRisk {
  risk_level : option string;
  risk_score : option float;
}.

Record Hospital := mkHospital {
  name : string;
  distance_km : float;
  eta_minutes : float;
  phone : string;
}.

Record AutoEmergency := mkAutoEmergency {
  enabled : bool;
  nearest_hospital : option Hospital;
}.

(** Response of [GET /api/vitals]. *)
Record VitalsData := mkVitalsData {
  vitals_session_id : string;
  vitals : Vitals;
  risk : option Risk;
}.

(** Response of [POST /api/ask_ai]. *)
Record ChatData := mkChatData {
  chat_session_id : string;
  reply : string;
  chat_vitals : option Vitals;
  chat_risk : option Risk;
  auto_emergency : option AutoEmergency;
}.

(** Response of [POST /api/sos]. *)
Record SosData := mkSosData {
  sos_session_id : string;
  sos_nearest_hospital : Hospital;
}.

Record Location := mkLocation { lat : float; lng : float }.

(** Request bodies, before [JSON.stringify]. *)
Record AskAiBody := mkAskAiBody {
  message : string;
  ask_session_id : string;
  ask_lat : float;
  ask_lng : float;
}.

Record SosBody := mkSosBody {
  sos_lat : float;
  sos_lng : float;
  sos_body_session_id : string;
}.

End Api.

Module Dom.

(** An alert pill: its [textContent] and [className]. *)
Record Pill := mkPill { pill_text : string; pill_class : string }.

(** The two pills, [els.pulseAlert] and [els.tempAlert]. *)
Record Pills := mkPills { pulseAlert : Pill; tempAlert : Pill }.

(** The toast element: its text and whether it carries class [hidden]. *)
Record Toast := mkToast { toast_text : string; toast_hidden : bool }.

(** [setToast(text)], identical in both builds. *)
Definition setToast (text : string) : Toast :=
  if JS.truthy text
  then {| toast_text := text; toast_hidden := false |}
  else {| toast_text := ""; toast_hidden := true |}.

(** A notice the user can see. *)
Definition shows (t : Toast) (text : string) : Prop :=
  toast_text t = text /\ toast_hidden t = false.

(** The reading of [new Date()] that [pushPulse] formats. *)
Record WallClock := mkWallClock { hours : nat; minutes : nat; seconds : nat }.

(** The [HH:MM:SS] label of [pushPulse], identical in both builds. *)
Definition time_label (t : WallClock) : string :=
  JS.padStart0 2 (JS.String_of_nat (hours t)) +:+ ":" +:+
  JS.padStart0 2 (JS.String_of_nat (minutes t)) +:+ ":" +:+
  JS.padStart0 2 (JS.String_of_nat (seconds t)).

(** The two chart arrays, [pulseLabels] and [pulseSeries]. *)
Record Buffer := mkBuffer {
  pulseLabels : list string;
  pulseSeries : list float;
}.

(** [while (pulseSeries.length > maxPoints) { pulseSeries.shift();
    pulseLabels.shift(); }]: the loop runs on the series, and [shift] on
    an empty array leaves it empty. *)
Fixpoint shift_while_over (maxPoints : nat) (labels : list string)
    (series : list float) : Buffer :=
  match series with
  | [] => {| pulseLabels := labels; pulseSeries := [] |}
  | _ :: series' =>
      if (maxPoints <? length series)%nat
      then shift_while_over maxPoints (tail labels) series'
      else {| pulseLabels := labels; pulseSeries := series |}
  end.

(** The body of [pushPulse] up to the constant [maxPoints]. *)
Definition push_point (maxPoints : nat) (t : WallClock) (pulse : float)
    (b : Buffer) : Buffer :=
  let label := time_label t in
  shift_while_over maxPoints (pulseLabels b ++ [label]) (pulseSeries b ++ [pulse]).

End Dom.

(** * Code that is the same in both builds *)
Module Common.
Import Api Dom Animator.

Definition sessionKey : string := "mindbot_vr_session_id".

Section Platform.
Variable Number_toString : float -> string.
Variable Math_pow : float -> float -> float.

(** ** The four animated read-outs *)
Inductive Field := FPulse | FTemp | FOxygen | FAir.

(** The elements, and the [frame] closures currently registered with
    [requestAnimationFrame], in registration order. *)
Record Fields := mkFields {
  pulse : Element;
  temp : Element;
  oxygen : Element;
  air : Element;
  tweens : list (Field * Tween);
}.

Definition get_field (f : Field) (fs : Fields) : Element :=
  match f with
  | FPulse => pulse fs | FTemp => temp fs
  | FOxygen => oxygen fs | FAir => air fs
  end.

Definition set_field (f : Field) (el : Element) (fs : Fields) : Fields :=
  match f with
  | FPulse => mkFields el (temp fs) (oxygen fs) (air fs) (tweens fs)
  | FTemp => mkFields (pulse fs) el (oxygen fs) (air fs) (tweens fs)
  | FOxygen => mkFields (pulse fs) (temp fs) el (air fs) (tweens fs)
  | FAir => mkFields (pulse fs) (temp fs) (oxygen fs) el (tweens fs)
  end.

Definition set_tweens (tws : list (Field * Tween)) (fs : Fields) : Fields :=
  mkFields (pulse fs) (temp fs) (oxygen fs) (air fs) tws.

(** [animateNumber(els.<f>, v, d)]. *)
Definition animate (f : Field) (v : float) (d : nat) (perf_now : float)
    (fs : Fields) : Fields :=
  let '(el, tw) := animateNumber (get_field f fs) v d perf_now in
  set_tweens (tweens fs ++ [(f, tw)]) (set_field f el fs).

(** One animation frame: every registered closure runs once with the
    frame's timestamp and stays registered only if it asks to. *)
Definition on_animation_frame (now : float) (fs : Fields) : Fields :=
  foldl (fun acc '(f, tw) =>
           let '(el, again) := frame Number_toString Math_pow tw now (get_field f acc) in
           let acc := set_field f el acc in
           if again then set_tweens (tweens acc ++ [(f, tw)]) acc else acc)
        (set_tweens [] fs) (tweens fs).

(** ** The session identifier *)
Record Session := mkSession {
  sessionId : string;
  localStorage : gmap string string;
}.

(** [let sessionId = localStorage.getItem(sessionKey) || ""]. *)
Definition load_session (storage : gmap string string) : Session :=
  {| sessionId := JS.or_else (default "" (storage !! sessionKey)) "";
     localStorage := storage |}.

(** [sessionId = data.session_id; localStorage.setItem(sessionKey, sessionId)]. *)
Definition adopt (id : string) (s : Session) : Session :=
  {| sessionId := id; localStorage := <[sessionKey := id]> (localStorage s) |}.

(** ** The chat transcript *)
Inductive Entry :=
| Message (className : string) (text : string)
| TypingIndicator.

(** [addMessage(role, text)]. *)
Definition addMessage (role text : string) (log : list Entry) : list Entry :=
  log ++ [Message (if String.eqb role "user" then "msg user" else "msg bot") text].

(** The readings taken while a snapshot is shown: [performance.now()]
    in each of the four [animateNumber] calls, and [new Date()] in
    [pushPulse]. *)
Record SnapshotEnv := mkSnapshotEnv {
  perf_pulse : float;
  perf_temp : float;
  perf_oxygen : float;
  perf_air : float;
  wall : WallClock;
}.

(** The four [animateNumber] calls made for a snapshot. *)
Definition animate_vitals (v : Vitals) (env : SnapshotEnv) (fs : Fields) : Fields :=
  let fs := animate FPulse (pulse_bpm v) 1 (perf_pulse env) fs in
  let fs := animate FTemp (temperature_c v) 1 (perf_temp env) fs in
  let fs := animate FOxygen (oxygen_percent v) 1 (perf_oxygen env) fs in
  animate FAir (air_quality_ppm v) 0 (perf_air env) fs.
End Platform.
End Common.

(** * src/static/app.js *)
Module Main.
Import Api Dom Animator Common.

(** ** Alerts (lines 133-149) *)
Definition applyAlerts (v : Vitals) : Pills :=
  {| pulseAlert :=
       if (110 <? pulse_bpm v)%float
       then {| pill_text := "High"; pill_class := "pill pill-warn" |}
       else {| pill_text := "Normal"; pill_class := "pill pill-ok" |};
     tempAlert :=
       if (38 <? temperature_c v)%float
       then {| pill_text := "Fever"; pill_class := "pill pill-danger" |}
       else {| pill_text := "Normal"; pill_class := "pill pill-ok" |} |}.

(** ** Rolling buffer (lines 289-302); the chart redraw is not modelled *)
Definition maxPoints : nat := 60.

Definition pushPulse (t : WallClock) (pulse : float) (b : Buffer) : Buffer :=
  push_point maxPoints t pulse b.

(** ** Audio cue (lines 187-212) *)

(** What became of one call of [playIcuAlert]: a tone of the given
    frequency was started, or the call returned at the 1200 ms gate, or
    the synthesis threw inside [try]. *)
Inductive Outcome :=
| Played (frequency : Z)
| Debounced
| SynthesisFailed.

(** One call of [playIcuAlert], as a trace entry. *)
Record CueCall := mkCueCall {
  cue_kind : string;
  cue_at : Z;
  cue_outcome : Outcome;
}.

(** [lastBeepAt], and the trace of calls so far, oldest first (the trace
    is an observer's log, the program does not read it). *)
Record Audio := mkAudio {
  lastBeepAt : Z;
  calls : list CueCall;
}.

(** What a call finds: the reading of [Date.now()], and whether the Web
    Audio calls inside [try] run through. *)
Record AudioEnv := mkAudioEnv { date_now : Z; synth_ok : bool }.

Definition frequency_of (kind : string) : Z :=
  if String.eqb kind "critical" then 880 else 660.

Definition playIcuAlert (kind : string) (env : AudioEnv) (a : Audio) : Audio :=
  let now := date_now env in
  if now - lastBeepAt a <? 1200
  then {| lastBeepAt := lastBeepAt a;
          calls := calls a ++ [mkCueCall kind now Debounced] |}
  else {| lastBeepAt := now;
          calls := calls a ++
            [mkCueCall kind now
               (if synth_ok env then Played (frequency_of kind)
                else SynthesisFailed)] |}.

(** ** Risk styling and the transition cue (lines 151-185) *)
Record RiskView := mkRiskView {
  classList : gset string;
  riskText : string;
  riskMeta : string;
  indicator_background : string;
  pill_borderColor : string;
  pill_color : string;
}.

Record Alerting := mkAlerting {
  view : RiskView;
  lastRiskLevel : string;
  audio : Audio;
}.

Definition risk_classes : gset string :=
  {[ "risk-low"; "risk-medium"; "risk-critical"; "critical" ]}.

(** [String((risk || {}).risk_level || "")]. *)
Definition level_of (risk : option Risk) : string :=
  match risk with
  | Some r => default "" (risk_level r)
  | None => ""
  end.

(** [Number((risk || {}).risk_score || 0)]. *)
Definition score_of (risk : option Risk) : float :=
  match risk with
  | Some r =>
      match risk_score r with
      | Some x => if JS.truthy_num x then x else 0%float
      | None => 0%float
      end
  | None => 0%float
  end.

Section Platform.
(** Browser built-ins that stay abstract: the decimal rendering of a
    number, [Math.pow], [encodeURIComponent] and [String.prototype.trim]. *)
Variable Number_toString : float -> string.
Variable Math_pow : float -> float -> float.
Variable encodeURIComponent : string -> string.
Variable String_trim : string -> string.

Definition restyle (level : string) (score : float) (v : RiskView) : RiskView :=
  let text := if JS.truthy level then "Risk: " +:+ level else "Risk: --" in
  let meta := "Score: " +:+
              (if JS.isFinite score then Number_toString score else "--") in
  let cleared := classList v ∖ risk_classes in
  if String.eqb level "Critical" then
    mkRiskView (cleared ∪ {[ "risk-critical"; "critical" ]}) text meta
      "rgba(255,61,113,.9)" "rgba(255,61,113,.35)" "rgba(255,61,113,.95)"
  else if String.eqb level "Medium" then
    mkRiskView (cleared ∪ {[ "risk-medium" ]}) text meta
      "rgba(255,183,3,.9)" "rgba(255,183,3,.35)" "rgba(255,183,3,.95)"
  else if String.eqb level "Low" then
    mkRiskView (cleared ∪ {[ "risk-low" ]}) text meta
      "rgba(46,229,157,.9)" "rgba(46,229,157,.35)" "rgba(46,229,157,.95)"
  else
    mkRiskView cleared text meta
      "rgba(169,183,223,.7)" "rgba(255,255,255,.14)" "".

(** The two [if]s inside the transition branch: at most one of them
    calls [playIcuAlert]. *)
Definition cue_for (level : string) (env : AudioEnv) (a : Audio) : Audio :=
  let a := if String.eqb level "Critical" then playIcuAlert "critical" env a else a in
  if String.eqb level "Medium" then playIcuAlert "medium" env a else a.

Definition setRiskUI (risk : option Risk) (env : AudioEnv) (s : Alerting)
    : Alerting :=
  let level := level_of risk in
  let score := score_of risk in
  let v := restyle level score (view s) in
  if JS.truthy level && negb (String.eqb level (lastRiskLevel s))
  then {| view := v; lastRiskLevel := level;
          audio := cue_for level env (audio s) |}
  else {| view := v; lastRiskLevel := lastRiskLevel s; audio := audio s |}.

(** ** Client state *)

Definition is_typing (e : Entry) : bool :=
  match e with TypingIndicator => true | Message _ _ => false end.

(** [typing.remove()]. *)
Definition remove_typing (log : list Entry) : list Entry :=
  filter (fun e => is_typing e = false) log.

(** Where the [async] function [boot] stands. [Halted]: it rejected, so
    the statements after the failing [await] never ran. *)
Inductive Phase :=
| AwaitHospitals
| AwaitGeo
| AwaitVitals
| Running
| Halted.

Record State := mkState {
  session : Session;
  phase : Phase;
  fields : Fields;
  pills : Pills;
  buffer : Buffer;
  alerting : Alerting;
  transcript : list Entry;
  busy : bool;
  revealing : option ChatData;
  sosResult : string;
  toast : Toast;
  lastKnownLocation : Location;
  center : Location;
}.

Definition set_session (x : Session) (st : State) : State :=
  mkState x (phase st) (fields st) (pills st) (buffer st) (alerting st)
    (transcript st) (busy st) (revealing st) (sosResult st) (toast st)
    (lastKnownLocation st) (center st).
Definition set_phase (x : Phase) (st : State) : State :=
  mkState (session st) x (fields st) (pills st) (buffer st) (alerting st)
    (transcript st) (busy st) (revealing st) (sosResult st) (toast st)
    (lastKnownLocation st) (center st).
Definition set_fields (x : Fields) (st : State) : State :=
  mkState (session st) (phase st) x (pills st) (buffer st) (alerting st)
    (transcript st) (busy st) (revealing st) (sosResult st) (toast st)
    (lastKnownLocation st) (center st).
Definition set_pills (x : Pills) (st : State) : State :=
  mkState (session st) (phase st) (fields st) x (buffer st) (alerting st)
    (transcript st) (busy st) (revealing st) (sosResult st) (toast st)
    (lastKnownLocation st) (center st).
Definition set_buffer (x : Buffer) (st : State) : State :=
  mkState (session st) (phase st) (fields st) (pills st) x (alerting st)
    (transcript st) (busy st) (revealing st) (sosResult st) (toast st)
    (lastKnownLocation st) (center st).
Definition set_alerting (x : Alerting) (st : State) : State :=
  mkState (session st) (phase st) (fields st) (pills st) (buffer st) x
    (transcript st) (busy st) (revealing st) (sosResult st) (toast st)
    (lastKnownLocation st) (center st).
Definition set_transcript (x : list Entry) (st : State) : State :=
  mkState (session st) (phase st) (fields st) (pills st) (buffer st) (alerting st)
    x (busy st) (revealing st) (sosResult st) (toast st)
    (lastKnownLocation st) (center st).
Definition set_busy (x : bool) (st : State) : State :=
  mkState (session st) (phase st) (fields st) (pills st) (buffer st) (alerting st)
    (transcript st) x (revealing st) (sosResult st) (toast st)
    (lastKnownLocation st) (center st).
Definition set_revealing (x : option ChatData) (st : State) : State :=
  mkState (session st) (phase st) (fields st) (pills st) (buffer st) (alerting st)
    (transcript st) (busy st) x (sosResult st) (toast st)
    (lastKnownLocation st) (center st).
Definition set_sosResult (x : string) (st : State) : State :=
  mkState (session st) (phase st) (fields st) (pills st) (buffer st) (alerting st)
    (transcript st) (busy st) (revealing st) x (toast st)
    (lastKnownLocation st) (center st).
Definition set_toast (x : Toast) (st : State) : State :=
  mkState (session st) (phase st) (fields st) (pills st) (buffer st) (alerting st)
    (transcript st) (busy st) (revealing st) (sosResult st) x
    (lastKnownLocation st) (center st).
Definition set_lastKnownLocation (x : Location) (st : State) : State :=
  mkState (session st) (phase st) (fields st) (pills st) (buffer st) (alerting st)
    (transcript st) (busy st) (revealing st) (sosResult st) (toast st)
    x (center st).

(** ** Showing a snapshot (lines 310-316 and 423-431) *)

Definition show_vitals (v : Vitals) (env : SnapshotEnv) (st : State) : State :=
  let st := set_fields (animate_vitals v env (fields st)) st in
  let st := set_pills (applyAlerts v) st in
  set_buffer (pushPulse (wall env) (pulse_bpm v) (buffer st)) st.

(** ** Requests *)
Inductive Request :=
| GET (url : string)
| POST_ask_ai (body : AskAiBody)
| POST_sos (body : SosBody).

(** ** refreshVitals (lines 304-318) *)
Definition refreshVitals_request (st : State) : Request :=
  let id := sessionId (session st) in
  let qs := if JS.truthy id
            then "?session_id=" +:+ encodeURIComponent id else "" in
  GET ("/api/vitals" +:+ qs).

(** The part after [await apiJson(...)] has returned [data]. *)
Definition refreshVitals_resume (data : VitalsData) (env : SnapshotEnv)
    (aenv : AudioEnv) (st : State) : State :=
  let st := set_session (adopt (vitals_session_id data) (session st)) st in
  let st := show_vitals (vitals data) env st in
  set_alerting (setRiskUI (risk data) aenv (alerting st)) st.

(** ** sendChat (lines 397-448) *)

(** Up to the [await]: [(st', [])] when the trimmed text is empty. The
    input box itself is not modelled: its value is the argument. *)
Definition sendChat (text : string) (st : State) : State * list Request :=
  let trimmed := String_trim text in
  if negb (JS.truthy trimmed) then (st, [])
  else
    let st := set_transcript (addMessage "user" trimmed (transcript st)) st in
    let st := set_toast (setToast "") st in
    let st := set_busy true st in
    let st := set_transcript (transcript st ++ [TypingIndicator]) st in
    (st, [POST_ask_ai {| message := trimmed;
                         ask_session_id := sessionId (session st);
                         ask_lat := lat (lastKnownLocation st);
                         ask_lng := lng (lastKnownLocation st) |}]).

(** The [finally] block. *)
Definition sendChat_finally (st : State) : State := set_busy false st.

(** From the answer of [apiJson] to the [await typewriterInto(...)], or
    through [catch] and [finally] when the request failed. *)
Definition sendChat_response (r : Result ChatData) (st : State) : State :=
  match r with
  | Ok data =>
      let st := set_session (adopt (chat_session_id data) (session st)) st in
      let st := set_transcript
                  (addMessage "assistant" "" (remove_typing (transcript st))) st in
      set_revealing (Some data) st
  | Err m =>
      let st := set_transcript (remove_typing (transcript st)) st in
      let st := set_toast (setToast ("Assistant error: " +:+ m)) st in
      sendChat_finally st
  end.

(** The typewriter ends with the whole reply in the message element it
    was given, the last one of the transcript. *)
Definition typed_out (text : string) (log : list Entry) : list Entry :=
  take (length log - 1) log ++ [Message "msg bot" text].

Definition emergency_text (h : Hospital) : string :=
  "AUTO EMERGENCY: " +:+ name h +:+ " • " +:+ Number_toString (distance_km h)
  +:+ " km • ETA " +:+ Number_toString (eta_minutes h) +:+ " min • " +:+ phone h.

(** The readings taken after the typewriter: those of [show_vitals],
    [Date.now()] inside [setRiskUI], and [Date.now()] in the emergency
    call of [playIcuAlert]. *)
Record ChatEnv := mkChatEnv {
  chat_snapshot : SnapshotEnv;
  chat_risk_audio : AudioEnv;
  chat_emergency_audio : AudioEnv;
}.

Definition set_audio (a : Audio) (s : Alerting) : Alerting :=
  {| view := view s; lastRiskLevel := lastRiskLevel s; audio := a |}.

(** Lines 423-438, then [finally]. *)
Definition sendChat_revealed (env : ChatEnv) (st : State) : State :=
  match revealing st with
  | None => st
  | Some data =>
      let st := set_revealing None st in
      let st := set_transcript (typed_out (reply data) (transcript st)) st in
      let st := match chat_vitals data with
                | Some v => show_vitals v (chat_snapshot env) st
                | None => st
                end in
      let st := match chat_risk data with
                | Some r => set_alerting
                              (setRiskUI (Some r) (chat_risk_audio env) (alerting st)) st
                | None => st
                end in
      let st := match auto_emergency data with
                | Some ae =>
                    match enabled ae, nearest_hospital ae with
                    | true, Some h =>
                        let st := set_sosResult (emergency_text h) st in
                        set_alerting
                          (set_audio (playIcuAlert "critical" (chat_emergency_audio env)
                                        (audio (alerting st))) (alerting st)) st
                    | _, _ => st
                    end
                | None => st
                end in
      sendChat_finally st
  end.

(** ** sos (lines 450-490); the map marker is not modelled *)

(** [getGeo()]: the device position, or the page centre when there is
    none. *)
Definition getGeo (pos : option Location) (st : State) : Location :=
  default (center st) pos.

Definition sos_click (st : State) : State :=
  set_toast (setToast "Activating SOS…") st.

Definition sos_located (pos : option Location) (st : State)
    : State * list Request :=
  let l := getGeo pos st in
  let st := set_lastKnownLocation l st in
  (st, [POST_sos {| sos_lat := lat l; sos_lng := lng l;
                    sos_body_session_id := sessionId (session st) |}]).

Definition sos_text (h : Hospital) : string :=
  "SOS: " +:+ name h +:+ " • " +:+ Number_toString (distance_km h)
  +:+ " km • ETA " +:+ Number_toString (eta_minutes h) +:+ " min • " +:+ phone h.

Definition sos_response (r : Result SosData) (aenv : AudioEnv) (st : State)
    : State :=
  match r with
  | Ok data =>
      let st := set_session (adopt (sos_session_id data) (session st)) st in
      let h := sos_nearest_hospital data in
      let st := set_sosResult (sos_text h) st in
      let st := set_toast
                  (setToast ("Nearest hospital: " +:+ name h +:+ " • ETA " +:+
                             Number_toString (eta_minutes h) +:+ " min")) st in
      set_alerting (set_audio (playIcuAlert "critical" aenv (audio (alerting st)))
                      (alerting st)) st
  | Err m => set_toast (setToast ("SOS failed: " +:+ m)) st
  end.

(** ** boot (lines 497-524) *)
Definition welcome : string :=
  "Welcome to MindBot VR. Describe symptoms (example: fever + cough + fatigue). I will compute a risk score and guidance.".

(** [boot().catch((e) => setToast(`Boot error: ${e.message}`))]: the
    rejected [await] ends [boot]. *)
Definition boot_failed (m : string) (st : State) : State :=
  set_phase Halted (set_toast (setToast ("Boot error: " +:+ m)) st).

(** ** The event loop *)
Inductive Event :=
| HospitalsLoaded (r : Result unit)
| BootLocated (pos : option Location)
| VitalsResponse (r : Result VitalsData) (env : SnapshotEnv) (aenv : AudioEnv)
| Tick
| AnimationFrame (now : float)
| ChatSubmit (input : string)
| ChatResponse (r : Result ChatData)
| ChatRevealed (env : ChatEnv)
| SosClick
| SosLocated (pos : option Location)
| SosResponse (r : Result SosData) (aenv : AudioEnv).

(** One turn of the event loop: the next state and the requests sent.
    Ticks, submits and clicks reach the script only once [boot] has
    installed the interval and the handlers, and a submit only while the
    send controls are enabled; responses are handled by the call that is
    waiting for them. *)
Definition step (ev : Event) (st : State) : State * list Request :=
  match ev, phase st with
  | HospitalsLoaded (Ok _), AwaitHospitals =>
      (set_phase AwaitGeo
         (set_transcript (addMessage "assistant" welcome (transcript st)) st), [])
  | HospitalsLoaded (Err m), AwaitHospitals => (boot_failed m st, [])
  | BootLocated pos, AwaitGeo =>
      let st := set_lastKnownLocation (getGeo pos st) st in
      (set_phase AwaitVitals st, [refreshVitals_request st])
  | VitalsResponse (Ok data) env aenv, AwaitVitals =>
      (set_phase Running (refreshVitals_resume data env aenv st), [])
  | VitalsResponse (Err m) _ _, AwaitVitals => (boot_failed m st, [])
  | VitalsResponse (Ok data) env aenv, Running =>
      (refreshVitals_resume data env aenv st, [])
  | VitalsResponse (Err _) _ _, Running => (st, [])
  | Tick, Running => (st, [refreshVitals_request st])
  | AnimationFrame now, _ =>
      (set_fields (on_animation_frame Number_toString Math_pow now (fields st)) st, [])
  | ChatSubmit input, Running => if busy st then (st, []) else sendChat input st
  | ChatResponse r, Running => (sendChat_response r st, [])
  | ChatRevealed env, Running => (sendChat_revealed env st, [])
  | SosClick, Running => (sos_click st, [])
  | SosLocated pos, Running => sos_located pos st
  | SosResponse r aenv, Running => (sos_response r aenv st, [])
  | _, _ => (st, [])
  end.

(** A run: the state after the events, and every request sent. *)
Fixpoint run (evs : list Event) (st : State) : State * list Request :=
  match evs with
  | [] => (st, [])
  | ev :: rest =>
      let '(st1, out1) := step ev st in
      let '(st2, out2) := run rest st1 in
      (st2, out1 ++ out2)
  end.

(** The state in which [boot] is entered: the page as loaded, with the
    script's variables at their initial values. *)
Definition start (page : State) (storage : gmap string string) : State :=
  {| session := load_session storage;
     phase := AwaitHospitals;
     fields := set_tweens [] (fields page);
     pills := pills page;
     buffer := {| pulseLabels := []; pulseSeries := [] |};
     alerting := {| view := view (alerting page); lastRiskLevel := "";
                    audio := {| lastBeepAt := 0; calls := [] |} |};
     transcript := transcript page;
     busy := false;
     revealing := None;
     sosResult := sosResult page;
     toast := toast page;
     lastKnownLocation := center page;
     center := center page |}.
End Platform.
End Main.

(** * src/backend/static/app.js *)
Module Backend.
Import Api Dom Animator Common.

(** ** Alerts (lines 74-90) *)
Definition applyAlerts (v : Vitals) : Pills :=
  {| pulseAlert :=
       if (110 <? pulse_bpm v)%float
       then {| pill_text := "Warning"; pill_class := "pill pill-warn" |}
       else {| pill_text := "Normal"; pill_class := "pill pill-ok" |};
     tempAlert :=
       if (38 <? temperature_c v)%float
       then {| pill_text := "Fever"; pill_class := "pill pill-danger" |}
       else {| pill_text := "Normal"; pill_class := "pill pill-ok" |} |}.

(** ** Rolling buffer (lines 173-186); the chart redraw is not modelled *)
Definition maxPoints : nat := 30.

Definition pushPulse (t : WallClock) (pulse : float) (b : Buffer) : Buffer :=
  push_point maxPoints t pulse b.

(** Request bodies of this build, before [JSON.stringify]. *)
Record AskBody := mkAskBody { ask_message : string; ask_id : string }.
Record LatLng := mkLatLng { body_lat : float; body_lng : float }.

Inductive Request :=
| GET (url : string)
| POST_ask_ai (body : AskBody)
| POST_sos (body : LatLng).

Section Platform.
Variable Number_toString : float -> string.
Variable Math_pow : float -> float -> float.
Variable encodeURIComponent : string -> string.
Variable String_trim : string -> string.

(** [boot_fetch] holds while the call of [refreshVitals] made by [boot]
    itself (line 365) has not settled. *)
Record State := mkState {
  session : Session;
  fields : Fields;
  pills : Pills;
  buffer : Buffer;
  transcript : list Entry;
  toast : Toast;
  center : Location;
  boot_fetch : bool;
}.

Definition set_session (x : Session) (st : State) : State :=
  mkState x (fields st) (pills st) (buffer st) (transcript st) (toast st)
    (center st) (boot_fetch st).
Definition set_fields (x : Fields) (st : State) : State :=
  mkState (session st) x (pills st) (buffer st) (transcript st) (toast st)
    (center st) (boot_fetch st).
Definition set_pills (x : Pills) (st : State) : State :=
  mkState (session st) (fields st) x (buffer st) (transcript st) (toast st)
    (center st) (boot_fetch st).
Definition set_buffer (x : Buffer) (st : State) : State :=
  mkState (session st) (fields st) (pills st) x (transcript st) (toast st)
    (center st) (boot_fetch st).
Definition set_transcript (x : list Entry) (st : State) : State :=
  mkState (session st) (fields st) (pills st) (buffer st) x (toast st)
    (center st) (boot_fetch st).
Definition set_toast (x : Toast) (st : State) : State :=
  mkState (session st) (fields st) (pills st) (buffer st) (transcript st) x
    (center st) (boot_fetch st).
Definition set_boot_fetch (x : bool) (st : State) : State :=
  mkState (session st) (fields st) (pills st) (buffer st) (transcript st)
    (toast st) (center st) x.

(** Lines 194-200 and 285-293. *)
Definition show_vitals (v : Vitals) (env : SnapshotEnv) (st : State) : State :=
  let st := set_fields (animate_vitals v env (fields st)) st in
  let st := set_pills (applyAlerts v) st in
  set_buffer (pushPulse (wall env) (pulse_bpm v) (buffer st)) st.

(** ** refreshVitals (lines 188-201) *)
Definition refreshVitals_request (st : State) : Request :=
  let id := sessionId (session st) in
  let qs := if JS.truthy id
            then "?session_id=" +:+ encodeURIComponent id else "" in
  GET ("/api/vitals" +:+ qs).

Definition refreshVitals_resume (data : VitalsData) (env : SnapshotEnv)
    (st : State) : State :=
  let st := set_session (adopt (vitals_session_id data) (session st)) st in
  show_vitals (vitals data) env st.

(** ** sendChat (lines 269-297) *)
Definition sendChat (text : string) (st : State) : State * list Request :=
  let trimmed := String_trim text in
  if negb (JS.truthy trimmed) then (st, [])
  else
    let st := set_transcript (addMessage "user" trimmed (transcript st)) st in
    let st := set_toast (setToast "") st in
    (st, [POST_ask_ai {| ask_message := trimmed;
                         ask_id := sessionId (session st) |}]).

Definition sendChat_response (r : Result ChatData) (env : SnapshotEnv)
    (st : State) : State :=
  match r with
  | Ok data =>
      let st := set_session (adopt (chat_session_id data) (session st)) st in
      let st := set_transcript
                  (addMessage "assistant" (reply data) (transcript st)) st in
      match chat_vitals data with
      | Some v => show_vitals v env st
      | None => st
      end
  | Err m => set_toast (setToast ("Assistant error: " +:+ m)) st
  end.

(** ** sos (lines 299-348); the map marker is not modelled *)
Definition sos_click (st : State) : State :=
  set_toast (setToast "Locating you for SOS…") st.

Definition sos_located (pos : option Location) (st : State) : list Request :=
  let l := default (center st) pos in
  [POST_sos {| body_lat := lat l; body_lng := lng l |}].

Definition sos_response (r : Result SosData) (st : State) : State :=
  match r with
  | Ok data =>
      let h := sos_nearest_hospital data in
      set_toast
        (setToast ("Nearest hospital: " +:+ name h +:+ " • " +:+
                   Number_toString (distance_km h) +:+ " km • " +:+ phone h)) st
  | Err m => set_toast (setToast ("SOS failed: " +:+ m)) st
  end.

(** ** boot (lines 355-376) *)
Definition welcome : string :=
  "Hi — I’m MindBot VR. Describe your symptoms (for example: headache + fever), and I will provide initial guidance.".

(** [boot()] runs to its end at once: both fetches are in flight, the
    interval and the handlers are installed. *)
Definition boot (page : State) (storage : gmap string string)
    : State * list Request :=
  let st := {| session := load_session storage;
               fields := set_tweens [] (fields page);
               pills := pills page;
               buffer := {| pulseLabels := []; pulseSeries := [] |};
               transcript := addMessage "assistant" welcome (transcript page);
               toast := toast page;
               center := center page;
               boot_fetch := true |} in
  (st, [GET "/api/hospitals"; refreshVitals_request st]).

(** ** The event loop *)
Inductive Event :=
| HospitalsLoaded (r : Result unit)
| BootVitalsResponse (r : Result VitalsData) (env : SnapshotEnv)
| PollResponse (r : Result VitalsData) (env : SnapshotEnv)
| Tick
| AnimationFrame (now : float)
| ChatSubmit (input : string)
| ChatResponse (r : Result ChatData) (env : SnapshotEnv)
| SosClick
| SosLocated (pos : option Location)
| SosResponse (r : Result SosData).

Definition step (ev : Event) (st : State) : State * list Request :=
  match ev with
  | HospitalsLoaded (Ok _) => (st, [])
  | HospitalsLoaded (Err m) =>
      (set_toast (setToast ("Hospitals load error: " +:+ m)) st, [])
  | BootVitalsResponse r env =>
      if boot_fetch st then
        let st := set_boot_fetch false st in
        match r with
        | Ok data => (refreshVitals_resume data env st, [])
        | Err m => (set_toast (setToast ("Vitals error: " +:+ m)) st, [])
        end
      else (st, [])
  | PollResponse (Ok data) env => (refreshVitals_resume data env st, [])
  | PollResponse (Err _) _ => (st, [])
  | Tick => (st, [refreshVitals_request st])
  | AnimationFrame now =>
      (set_fields (on_animation_frame Number_toString Math_pow now (fields st)) st, [])
  | ChatSubmit input => sendChat input st
  | ChatResponse r env => (sendChat_response r env st, [])
  | SosClick => (sos_click st, [])
  | SosLocated pos => (st, sos_located pos st)
  | SosResponse r => (sos_response r st, [])
  end.

Fixpoint run (evs : list Event) (st : State) : State * list Request :=
  match evs with
  | [] => (st, [])
  | ev :: rest =>
      let '(st1, out1) := step ev st in
      let '(st2, out2) := run rest st1 in
      (st2, out1 ++ out2)
  end.
End Platform.
End Backend.

(** * apiJson (src/static/app.js:214-224, src/backend/static/app.js:92-102)

    The same code in both builds. *)
Module Fetch.
Import Api.

(** How [fetch] settles: it rejects with an error, or it resolves with a
    response of which [apiJson] reads [ok], [status], the text of the body
    and, through [res.json()], the parsed body or the parser's error. *)
Inductive Settled (A : Type) : Type :=
| Rejected (message : string)
| Responded (ok : bool) (status : nat) (text : string) (json : Result A).
Arguments Rejected {A} message.
Arguments Responded {A} ok status text json.

Definition apiJson {A : Type} (r : Settled A) : Result A :=
  match r with
  | Rejected m => Err m
  | Responded false status text _ =>
      Err (JS.or_else text ("HTTP " +:+ JS.String_of_nat status))
  | Responded true _ _ json => json
  end.
End Fetch.

(** * typewriterInto (src/static/app.js:98-114)

    A string is the list of its code units: [src.length] is [length src]
    and [src.slice(0, i)] is [take i src]. The period of the timer is real
    time and is not modelled; a tick is one call of the timer's callback. *)
Module Typewriter.
Section Units.
Variable unit : Type.

(** The counter [i], [el.textContent], and whether the callback has
    cleared the timer and resolved the promise. *)
Record State := mkState {
  i : nat;
  shown : list unit;
  resolved : bool;
}.

(** [el.textContent = ""; let i = 0;] and the timer is set. *)
Definition begin : State := {| i := 0; shown := []; resolved := false |}.

(** One call of the callback; after [clearInterval] there is none. *)
Definition tick (src : list unit) (s : State) : State :=
  if resolved s then s
  else {| i := S (i s);
          shown := take (S (i s)) src;
          resolved := (length src <=? S (i s))%nat |}.

Fixpoint ticks (n : nat) (src : list unit) (s : State) : State :=
  match n with
  | O => s
  | S n' => ticks n' src (tick src s)
  end.
End Units.
End Typewriter.

(** * Theme (src/static/app.js:50-58 and 498)

    [htmlEl.dataset.theme], and [localStorage], of which the session
    identifier uses another key. *)
Module Theme.

Definition themeKey : string := "mindbot_vr_theme".

Record State := mkState {
  dataset_theme : option string;
  storage : gmap string string;
}.

Definition setTheme (next : string) (s : State) : State :=
  let theme := if String.eqb next "light" then "light" else "dark" in
  {| dataset_theme := Some theme;
     storage := <[themeKey := theme]> (storage s) |}.

(** [htmlEl.dataset.theme === "light"]. *)
Definition is_light (s : State) : bool :=
  match dataset_theme s with
  | Some t => String.eqb t "light"
  | None => false
  end.

Definition toggleTheme (s : State) : State :=
  setTheme (if is_light s then "dark" else "light") s.

(** The first statement of [boot]:
    [setTheme(localStorage.getItem(themeKey) || "dark")]. *)
Definition boot (s : State) : State :=
  setTheme (JS.or_else (default "" (storage s !! themeKey)) "dark") s.

(** [n] clicks on the theme button. *)
Fixpoint clicks (n : nat) (s : State) : State :=
  match n with
  | O => s
  | S n' => clicks n' (toggleTheme s)
  end.
End Theme.

(** * Observations

    The vocabulary of the properties below: what a sequence of calls
    pushed, what a trace of [playIcuAlert] calls shows, what a request
    carries. *)
Section Observations.
Import Api Dom Animator Common Main.
Variable Number_toString : float -> string.
Variable Math_pow : float -> float -> float.
Variable encodeURIComponent : string -> string.
Variable String_trim : string -> string.

(** The values and labels pushed by a sequence of calls. *)
Definition pushed_values (ps : list (WallClock * float)) : list float := ps.*2.

Definition pushed_labels (ps : list (WallClock * float)) : list string :=
  time_label <$> ps.*1.

(** The buffer after the calls [ps], from empty arrays. *)
Definition after_pushes (cap : nat) (ps : list (WallClock * float)) : Buffer :=
  foldl (fun b p => push_point cap p.1 p.2 b)
        {| pulseLabels := []; pulseSeries := [] |} ps.

(** The [n] most recent entries of a history, oldest first. *)
Definition recent {A} (n : nat) (history : list A) : list A :=
  drop (length history - n) history.

(** The chart arrays of each build after the calls [ps] of its [pushPulse],
    starting from the empty arrays of lines 43-44 (resp. 31-32). *)
Definition main_pushes (ps : list (WallClock * float)) : Buffer :=
  foldl (fun b p => Main.pushPulse p.1 p.2 b)
        {| pulseLabels := []; pulseSeries := [] |} ps.

Definition backend_pushes (ps : list (WallClock * float)) : Buffer :=
  foldl (fun b p => Backend.pushPulse p.1 p.2 b)
        {| pulseLabels := []; pulseSeries := [] |} ps.

Definition pill_is (p : Pill) (text className : string) : Prop :=
  p = {| pill_text := text; pill_class := className |}.

(** A call that started a tone. *)
Definition audible (c : CueCall) : bool :=
  match cue_outcome c with
  | Played _ => true
  | _ => false
  end.

(** What a call of [playIcuAlert(kind)] leads to in a given audio state. *)
Definition verdict (kind : string) (env : AudioEnv) (a : Audio) : Outcome :=
  if date_now env - lastBeepAt a <? 1200 then Debounced
  else if synth_ok env then Played (frequency_of kind)
  else SynthesisFailed.

(** Every tone so far started no later than [lastBeepAt], and any two
    tones are 1200 ms apart, the later call having the later reading. *)
Definition spaced (a : Audio) : Prop :=
  (forall c, c ∈ calls a -> audible c = true -> cue_at c <= lastBeepAt a)
  /\ (forall (i j : nat) ci cj,
        (i < j)%nat -> calls a !! i = Some ci -> calls a !! j = Some cj ->
        audible ci = true -> audible cj = true ->
        cue_at ci + 1200 <= cue_at cj).

(** [a'] is [a] after some further calls of [playIcuAlert]. *)
Inductive played_on (a : Audio) : Audio -> Prop :=
| played_on_refl : played_on a a
| played_on_call kind env a' :
    played_on a a' -> played_on a (playIcuAlert kind env a').

(** The calls of [playIcuAlert] made between two states. *)
Definition made (s s' : Alerting) : list CueCall :=
  drop (length (calls (audio s))) (calls (audio s')).

(** The evaluation is a transition: a level is present and it is not the
    remembered one. *)
Definition transition (level last : string) : bool :=
  JS.truthy level && negb (String.eqb level last).

(** The identifier the backend sends with an event, if the event is a
    successful response of one of the three endpoints. *)
Definition issued (ev : Event) : option string :=
  match ev with
  | VitalsResponse (Ok data) _ _ => Some (vitals_session_id data)
  | ChatResponse (Ok data) => Some (chat_session_id data)
  | SosResponse (Ok data) _ => Some (sos_session_id data)
  | _ => None
  end.

(** The value the last frame formats: [t] is [1], so [eased] is
    [1 - Math.pow(0, 3)], that is [1]. *)
Definition landing (tw : Tween) : float :=
  (current tw + (target tw - current tw) * 1)%float.

(** The pulse read-out after a previous target of 55.1. *)
Definition pulse_at_55_1 : Element :=
  {| dataset_value := Some 55.1%float; textContent := "55.1" |}.

(** The trace of [playIcuAlert] calls after a run of the client. *)
Definition cue_log (page : State) (storage : gmap string string)
    (evs : list Event) : list CueCall :=
  calls (audio (alerting
    (fst (Main.run Number_toString Math_pow encodeURIComponent String_trim evs
            (start page storage))))).

(** The request carries the identifier [id]. *)
Definition attaches (id : string) (r : Request) : Prop :=
  match r with
  | GET url => url = "/api/vitals?session_id=" +:+ encodeURIComponent id
  | POST_ask_ai body => ask_session_id body = id
  | POST_sos body => sos_body_session_id body = id
  end.

(** The audio state in which line 437 is reached: the one [setRiskUI] left
    when the response carried a risk, the one found otherwise. *)
Definition audio_before_emergency (data : ChatData) (env : ChatEnv) (st : State)
    : Audio :=
  match chat_risk data with
  | Some r => audio (Main.setRiskUI Number_toString (Some r) (chat_risk_audio env)
                       (alerting st))
  | None => audio (alerting st)
  end.
End Observations.

(** Stand-ins for the abstract built-ins, for the concrete runs below. *)
Module Sample.
Import Api Dom Animator Common.

Definition Number_toString (x : float) : string := JS.toFixed (fun _ => "1e+21") x 0.
Definition Math_pow (x y : float) : float := (x * x * x)%float.
Definition encodeURIComponent (s : string) : string := s.
Definition String_trim (s : string) : string := s.

Definition blank : Element := {| dataset_value := None; textContent := "--" |}.
Definition normal : Pill := {| pill_text := "Normal"; pill_class := "pill pill-ok" |}.
Definition beni_suef : Location := {| lat := 29.0661; lng := 31.0994 |}.

(** A page as it could be served, before the script runs. *)
Definition page : Main.State :=
  {| Main.session := {| sessionId := ""; localStorage := ∅ |};
     Main.phase := Main.AwaitHospitals;
     Main.fields := mkFields blank blank blank blank [];
     Main.pills := mkPills normal normal;
     Main.buffer := mkBuffer [] [];
     Main.alerting :=
       {| Main.view := Main.mkRiskView ∅ "Risk: --" "Score: --" "" "" "";
          Main.lastRiskLevel := "";
          Main.audio := Main.mkAudio 0 [] |};
     Main.transcript := [];
     Main.busy := false;
     Main.revealing := None;
     Main.sosResult := "";
     Main.toast := {| toast_text := ""; toast_hidden := true |};
     Main.lastKnownLocation := beni_suef;
     Main.center := beni_suef |}.

Definition backend_page : Backend.State :=
  {| Backend.session := {| sessionId := ""; localStorage := ∅ |};
     Backend.fields := mkFields blank blank blank blank [];
     Backend.pills := mkPills normal normal;
     Backend.buffer := mkBuffer [] [];
     Backend.transcript := [];
     Backend.toast := {| toast_text := ""; toast_hidden := true |};
     Backend.center := beni_suef;
     Backend.boot_fetch := false |}.

Definition risk_at (level : string) : option Risk :=
  Some {| risk_level := Some level; risk_score := Some 42%float |}.

Definition snapshot_env : SnapshotEnv :=
  {| perf_pulse := 1000; perf_temp := 1000; perf_oxygen := 1000;
     perf_air := 1000; wall := mkWallClock 9 5 7 |}.

(** The client of src/static/app.js, running, with "Low" remembered. *)
Definition running_at_low : Main.State :=
  Main.set_phase Main.Running
    (Main.set_alerting
       (Main.mkAlerting (Main.view (Main.alerting page)) "Low"
          (Main.mkAudio 0 []))
       page).

(** Four evaluations of [setRiskUI] on the fresh page, one second apart. *)
Definition after_low : Main.Alerting :=
  Main.setRiskUI Number_toString (risk_at "Low") (Main.mkAudioEnv 5000 true)
    (Main.alerting page).
Definition after_critical : Main.Alerting :=
  Main.setRiskUI Number_toString (risk_at "Critical") (Main.mkAudioEnv 6000 true)
    after_low.
Definition after_repeat : Main.Alerting :=
  Main.setRiskUI Number_toString (risk_at "Critical") (Main.mkAudioEnv 7000 true)
    after_critical.
Definition after_medium : Main.Alerting :=
  Main.setRiskUI Number_toString (risk_at "Medium") (Main.mkAudioEnv 8000 true)
    after_repeat.
End Sample.

(** * Further observations *)
Section MoreObservations.
Import Api Dom Animator Common.
Variable encodeURIComponent : string -> string.

#[global] Instance Field_eq_dec : EqDecision Field.
Proof. solve_decision. Defined.

(** The closures registered for one field, in registration order. *)
Definition tweens_of (f : Field) (tws : list (Field * Tween)) : list Tween :=
  snd <$> filter (fun p => fst p = f) tws.

(** A request of the other build carries the identifier [id], as far as
    its endpoint is given one: the body of /api/sos has no such field. *)
Definition backend_attaches (id : string) (r : Backend.Request) : Prop :=
  match r with
  | Backend.GET url => url = "/api/vitals?session_id=" +:+ encodeURIComponent id
  | Backend.POST_ask_ai body => Backend.ask_id body = id
  | Backend.POST_sos _ => True
  end.

(** The two chart arrays are index-aligned and hold at most [cap] points. *)
Definition well_formed (cap : nat) (b : Buffer) : Prop :=
  length (pulseLabels b) = length (pulseSeries b)
  /\ (length (pulseSeries b) <= cap)%nat.

(** The [Date.now()] readings of the calls that started a tone, oldest
    first. *)
Definition tone_times (a : Main.Audio) : list Z :=
  Main.cue_at <$> filter (fun c => audible c = true) (Main.calls a).

(** The readings of the tones are below [lastBeepAt], and the tone [m]
    places after another one came at least [1200 * m] ms later. *)
Definition paced (a : Main.Audio) : Prop :=
  (forall t, t ∈ tone_times a -> t <= Main.lastBeepAt a)
  /\ (forall (i m : nat) x y,
        tone_times a !! i = Some x -> tone_times a !! (i + m)%nat = Some y ->
        x + 1200 * Z.of_nat m <= y).

(** A call with one of the two kinds the script passes, whose tone, if one
    started, has the frequency of its kind. *)
Definition regular_call (c : Main.CueCall) : Prop :=
  (Main.cue_kind c = "critical" \/ Main.cue_kind c = "medium")
  /\ forall f, Main.cue_outcome c = Main.Played f ->
               f = if String.eqb (Main.cue_kind c) "critical" then 880 else 660.

(** Events that belong to no chat turn and to no stage of [boot]. *)
Definition beside_chat (ev : Main.Event) : bool :=
  match ev with
  | Main.VitalsResponse _ _ _ | Main.Tick | Main.AnimationFrame _
  | Main.SosClick | Main.SosLocated _ | Main.SosResponse _ _ => true
  | _ => false
  end.

(** What a chat turn relies on while it waits. *)
Definition chat_frame (st st' : Main.State) : Prop :=
  Main.phase st' = Main.phase st /\ Main.transcript st' = Main.transcript st
  /\ Main.busy st' = Main.busy st /\ Main.revealing st' = Main.revealing st.

(** The [session_id] the other build adopts from an event: /api/sos is not
    among them. *)
Definition backend_issued (ev : Backend.Event) : option string :=
  match ev with
  | Backend.BootVitalsResponse (Ok data) _ => Some (vitals_session_id data)
  | Backend.PollResponse (Ok data) _ => Some (vitals_session_id data)
  | Backend.ChatResponse (Ok data) _ => Some (chat_session_id data)
  | _ => None
  end.

(** The page shows one of the two themes and [localStorage] holds it. *)
Definition theme_settled (s : Theme.State) : Prop :=
  exists t, (t = "light" \/ t = "dark")
            /\ Theme.dataset_theme s = Some t
            /\ Theme.storage s !! Theme.themeKey = Some t.

(** The toast is hidden exactly when it has no text. *)
Definition toast_consistent (t : Toast) : Prop :=
  toast_hidden t = true <-> toast_text t = "".
End MoreObservations.

(** * Properties *)

(** ** The model on concrete inputs *)
Section Checks.
Import Api Dom Animator Common.

Local Abbreviation toFixed := (JS.toFixed Sample.Number_toString).

(** [round_half_up num den] is the integer nearest to [num / den], the
    larger one of two: the choice [toFixed] prescribes. *)
Lemma round_half_up_is_nearest (num den : Z) :
  0 < den ->
  2 * num - den < 2 * den * JS.round_half_up num den <= 2 * num + den.
Proof.
  intros Hden. unfold JS.round_half_up.
  pose proof (Z.mul_div_le (2 * num + den) (2 * den) ltac:(lia)).
  pose proof (Z.mul_succ_div_gt (2 * num + den) (2 * den) ltac:(lia)).
  lia.
Qed.

Example toFixed_takes_the_larger_of_two : toFixed 2.5 0 = "3".
Proof. vm_compute. reflexivity. Qed.

Example toFixed_reads_the_binary_value : toFixed 1.005 2 = "1.00".
Proof. vm_compute. reflexivity. Qed.

Example toFixed_keeps_the_sign : toFixed (-0.01) 1 = "-0.0".
Proof. vm_compute. reflexivity. Qed.

Example toFixed_pads_the_fraction : toFixed 72 1 = "72.0" /\ toFixed 0.05 1 = "0.1".
Proof. vm_compute. split; reflexivity. Qed.

Example toFixed_of_NaN : toFixed nan 1 = "NaN".
Proof. vm_compute. reflexivity. Qed.

Example time_label_pads : time_label (mkWallClock 9 5 7) = "09:05:07".
Proof. vm_compute. reflexivity. Qed.

Example Math_min_clamps :
  JS.Math_min 1 (500 / 420) = 1%float /\ JS.Math_min 1 0.25 = 0.25%float.
Proof. vm_compute. split; reflexivity. Qed.

(** A poll answers with a pulse of 125, a temperature of 37.1 and risk
    Medium while Low is remembered: the pulse pill warns, the temperature
    pill does not, the styling is medium, one "medium" call is made and the
    buffer gains the point 125. *)
Example poll_with_medium_after_low :
  let st := Main.refreshVitals_resume Sample.Number_toString
              (mkVitalsData "abc" (mkVitals 125 37.1 97 40) (Sample.risk_at "Medium"))
              Sample.snapshot_env (Main.mkAudioEnv 5000 true) Sample.running_at_low in
  Main.pills st = mkPills (mkPill "High" "pill pill-warn") (mkPill "Normal" "pill pill-ok")
  /\ elements (Main.classList (Main.view (Main.alerting st))) = ["risk-medium"]
  /\ Main.calls (Main.audio (Main.alerting st))
     = [Main.mkCueCall "medium" 5000 (Main.Played 660)]
  /\ Main.buffer st = mkBuffer ["09:05:07"] [125%float]
  /\ sessionId (Main.session st) = "abc".
Proof. vm_compute. repeat split; reflexivity. Qed.

(** Sixty-one pushes leave the last sixty. *)
Example sixty_one_pushes :
  length (pulseSeries (main_pushes (replicate 61 (mkWallClock 0 0 0, 70%float)))) = 60%nat
  /\ length (pulseSeries (backend_pushes (replicate 61 (mkWallClock 0 0 0, 70%float))))
     = 30%nat.
Proof. vm_compute. split; reflexivity. Qed.

(** From page load to the first poll: the boot fetch goes out without an
    identifier, the interval's fetch with the one the response brought. *)
Example boot_then_tick :
  snd (Main.run Sample.Number_toString Sample.Math_pow Sample.encodeURIComponent
         Sample.String_trim
         [Main.HospitalsLoaded (Ok tt);
          Main.BootLocated None;
          Main.VitalsResponse
            (Ok (mkVitalsData "abc" (mkVitals 72 36.6 98 40) (Sample.risk_at "Low")))
            Sample.snapshot_env (Main.mkAudioEnv 5000 true);
          Main.Tick]
         (Main.start Sample.page ∅))
  = [Main.GET "/api/vitals"; Main.GET "/api/vitals?session_id=abc"].
Proof. vm_compute. reflexivity. Qed.

(** The other build: its boot fetch fails, the toast says so. *)
Example backend_boot_fetch_fails :
  Backend.toast
    (fst (Backend.step Sample.Number_toString Sample.Math_pow
            Sample.encodeURIComponent Sample.String_trim
            (Backend.BootVitalsResponse (Err "Failed to fetch") Sample.snapshot_env)
            (fst (Backend.boot Sample.encodeURIComponent Sample.backend_page ∅))))
  = mkToast "Vitals error: Failed to fetch" false.
Proof. vm_compute. reflexivity. Qed.

(** 120.45 is read as the binary64 number [0x1.e1ccccccccccdp+6], a little
    above 120.45; going there from 55.1 lands one unit in the last place
    below it, a little below 120.45. *)
Example landing_below_120_45 :
  120.45%float = 0x1.e1ccccccccccdp+6%float
  /\ landing (mkTween 55.1 120.45 1000 1) = 0x1.e1cccccccccccp+6%float.
Proof. vm_compute. split; reflexivity. Qed.
End Checks.

(** ** The rolling buffer *)
Section BufferFacts.
Import Dom.
Local Open Scope nat_scope.

(** The eviction loop keeps the last [maxPoints] entries of both arrays
    when they start index-aligned. *)
Lemma shift_while_over_drop (cap : nat) (series : list float) :
  forall labels : list string,
    length labels = length series ->
    shift_while_over cap labels series =
      {| pulseLabels := drop (length series - cap) labels;
         pulseSeries := drop (length series - cap) series |}.
Proof.
  induction series as [|x series IH]; intros labels Hlen.
  - destruct labels; [reflexivity | discriminate].
  - destruct labels as [|l labels]; [discriminate|].
    cbn [shift_while_over tail]. injection Hlen as Hlen.
    destruct (Nat.ltb_spec cap (length (x :: series))) as [Hlt|Hge];
      cbn [length] in *.
    + rewrite (IH labels Hlen).
      replace (S (length series) - cap) with (S (length series - cap)) by lia.
      reflexivity.
    + replace (S (length series) - cap) with 0 by lia. reflexivity.
Qed.

Lemma drop_snoc_window {A} (cap : nat) (xs : list A) (x : A) :
  drop (length (drop (length xs - cap) xs ++ [x]) - cap)
       (drop (length xs - cap) xs ++ [x])
  = drop (length (xs ++ [x]) - cap) (xs ++ [x]).
Proof.
  rewrite !length_app, length_drop. cbn [length].
  destruct (Nat.le_gt_cases (length xs) cap) as [Hle|Hgt].
  - replace (length xs - cap) with 0 by lia. rewrite drop_0.
    replace (length xs - 0 + 1 - cap) with (length xs + 1 - cap) by lia.
    reflexivity.
  - replace (length xs - (length xs - cap) + 1 - cap) with 1 by lia.
    replace (length xs + 1 - cap) with ((length xs - cap) + 1) by lia.
    rewrite <- drop_drop.
    rewrite (drop_app_le xs [x] (length xs - cap)) by lia.
    reflexivity.
Qed.

Lemma after_pushes_window (cap : nat) (ps : list (WallClock * float)) :
  after_pushes cap ps =
    {| pulseLabels := drop (length ps - cap) (pushed_labels ps);
       pulseSeries := drop (length ps - cap) (pushed_values ps) |}.
Proof.
  unfold after_pushes, pushed_labels, pushed_values.
  induction ps as [|p ps IH] using rev_ind; [reflexivity|].
  rewrite foldl_app. cbn [foldl]. rewrite IH. unfold push_point.
  cbn [pulseLabels pulseSeries].
  rewrite shift_while_over_drop
    by (rewrite !length_app, !length_drop, !length_fmap; reflexivity).
  rewrite !fmap_app. cbn [fmap list_fmap].
  f_equal.
  - pose proof (drop_snoc_window cap (time_label <$> ps.*1) (time_label p.1)) as H.
    rewrite !length_app, !length_drop, !length_fmap in *. exact H.
  - pose proof (drop_snoc_window cap (ps.*2) (p.2)) as H.
    rewrite !length_app, !length_drop, !length_fmap in *. exact H.
Qed.
End BufferFacts.

Section BufferClaims.
Import Dom.
Local Open Scope nat_scope.

(** C2. After any sequence of [pushPulse] calls (hence after each call of
    a longer sequence), the series holds at most 60 values in
    src/static/app.js and at most 30 in src/backend/static/app.js, it is
    exactly the most recently pushed values in insertion order, the labels
    are the labels of those same calls, and both arrays have one length. *)
Theorem C2_rolling_buffer_window (ps : list (WallClock * float)) :
  (length (pulseSeries (main_pushes ps)) <= 60
   /\ pulseSeries (main_pushes ps) = recent 60 (pushed_values ps)
   /\ pulseLabels (main_pushes ps) = recent 60 (pushed_labels ps)
   /\ length (pulseLabels (main_pushes ps)) = length (pulseSeries (main_pushes ps)))
  /\
  (length (pulseSeries (backend_pushes ps)) <= 30
   /\ pulseSeries (backend_pushes ps) = recent 30 (pushed_values ps)
   /\ pulseLabels (backend_pushes ps) = recent 30 (pushed_labels ps)
   /\ length (pulseLabels (backend_pushes ps)) = length (pulseSeries (backend_pushes ps))).
Proof.
  assert (Hgen : forall cap,
    length (pulseSeries (after_pushes cap ps)) <= cap
    /\ pulseSeries (after_pushes cap ps) = recent cap (pushed_values ps)
    /\ pulseLabels (after_pushes cap ps) = recent cap (pushed_labels ps)
    /\ length (pulseLabels (after_pushes cap ps))
       = length (pulseSeries (after_pushes cap ps))).
  { intros cap. rewrite after_pushes_window. cbn [pulseSeries pulseLabels].
    unfold recent, pushed_values, pushed_labels.
    rewrite !length_drop, !length_fmap.
    split; [lia|]. split; [reflexivity|]. split; reflexivity. }
  split; [apply (Hgen Main.maxPoints) | apply (Hgen Backend.maxPoints)].
Qed.
End BufferClaims.

(** ** Alert pills *)
Section AlertClaims.
Import Api Dom.

(** C7. In both builds the pulse pill reads "High" (src/static/app.js) or
    "Warning" (src/backend/static/app.js) with class [pill-warn] exactly
    when [pulse_bpm > 110] and "Normal" with [pill-ok] otherwise; the
    temperature pill reads "Fever" with [pill-danger] exactly when
    [temperature_c > 38] and "Normal" with [pill-ok] otherwise; a pulse of
    exactly 110 and a temperature of exactly 38 read "Normal". *)
Theorem C7_alert_thresholds (v : Vitals) :
  (pill_is (pulseAlert (Main.applyAlerts v)) "High" "pill pill-warn"
     <-> (110 <? pulse_bpm v)%float = true)
  /\ (pill_is (pulseAlert (Main.applyAlerts v)) "Normal" "pill pill-ok"
     <-> (110 <? pulse_bpm v)%float = false)
  /\ (pill_is (pulseAlert (Backend.applyAlerts v)) "Warning" "pill pill-warn"
     <-> (110 <? pulse_bpm v)%float = true)
  /\ (pill_is (pulseAlert (Backend.applyAlerts v)) "Normal" "pill pill-ok"
     <-> (110 <? pulse_bpm v)%float = false)
  /\ (pill_is (tempAlert (Main.applyAlerts v)) "Fever" "pill pill-danger"
     <-> (38 <? temperature_c v)%float = true)
  /\ (pill_is (tempAlert (Main.applyAlerts v)) "Normal" "pill pill-ok"
     <-> (38 <? temperature_c v)%float = false)
  /\ (pill_is (tempAlert (Backend.applyAlerts v)) "Fever" "pill pill-danger"
     <-> (38 <? temperature_c v)%float = true)
  /\ (pill_is (tempAlert (Backend.applyAlerts v)) "Normal" "pill pill-ok"
     <-> (38 <? temperature_c v)%float = false)
  /\ (pulse_bpm v = 110%float ->
      pill_is (pulseAlert (Main.applyAlerts v)) "Normal" "pill pill-ok"
      /\ pill_is (pulseAlert (Backend.applyAlerts v)) "Normal" "pill pill-ok")
  /\ (temperature_c v = 38%float ->
      pill_is (tempAlert (Main.applyAlerts v)) "Normal" "pill pill-ok"
      /\ pill_is (tempAlert (Backend.applyAlerts v)) "Normal" "pill pill-ok").
Proof.
  unfold pill_is, Main.applyAlerts, Backend.applyAlerts. cbn [pulseAlert tempAlert].
  destruct (110 <? pulse_bpm v)%float eqn:Ep, (38 <? temperature_c v)%float eqn:Et;
    repeat split; intros; try reflexivity; try discriminate;
    match goal with
    | H : _ = _ :> float |- _ => rewrite H in *; discriminate
    end.
Qed.

(** The two boundary readings of C7, on a concrete snapshot. *)
Lemma C7_alert_thresholds_witness :
  pill_is (pulseAlert (Main.applyAlerts (mkVitals 110 38 97 40))) "Normal" "pill pill-ok"
  /\ pill_is (tempAlert (Backend.applyAlerts (mkVitals 110 38 97 40))) "Normal" "pill pill-ok".
Proof.
  pose proof (C7_alert_thresholds (mkVitals 110 38 97 40)) as H.
  destruct H as (_ & _ & _ & _ & _ & _ & _ & _ & Hp & Ht).
  split; [apply (Hp eq_refl) | apply (Ht eq_refl)].
Defined.
End AlertClaims.

(** ** The audio cue and its 1200 ms gate *)
Section AudioFacts.
Import Main.

Lemma playIcuAlert_calls kind env a :
  calls (playIcuAlert kind env a)
  = calls a ++ [mkCueCall kind (date_now env) (verdict kind env a)].
Proof.
  unfold playIcuAlert, verdict.
  destruct (date_now env - lastBeepAt a <? 1200); reflexivity.
Qed.

Lemma playIcuAlert_gate_closed kind env a :
  date_now env - lastBeepAt a < 1200 ->
  playIcuAlert kind env a
  = {| lastBeepAt := lastBeepAt a;
       calls := calls a ++ [mkCueCall kind (date_now env) Debounced] |}.
Proof.
  intros H. unfold playIcuAlert.
  destruct (Z.ltb_spec (date_now env - lastBeepAt a) 1200); [reflexivity | lia].
Qed.

Lemma playIcuAlert_gate_open kind env a :
  1200 <= date_now env - lastBeepAt a ->
  playIcuAlert kind env a
  = {| lastBeepAt := date_now env;
       calls := calls a ++
         [mkCueCall kind (date_now env)
            (if synth_ok env then Played (frequency_of kind) else SynthesisFailed)] |}.
Proof.
  intros H. unfold playIcuAlert.
  destruct (Z.ltb_spec (date_now env - lastBeepAt a) 1200); [lia | reflexivity].
Qed.

Lemma spaced_initial : spaced {| lastBeepAt := 0; calls := [] |}.
Proof.
  split.
  - intros c Hc. cbn in Hc. inversion Hc.
  - intros i j ci cj _ Hi. cbn in Hi. rewrite lookup_nil in Hi. discriminate.
Qed.

Lemma spaced_playIcuAlert kind env a :
  spaced a -> spaced (playIcuAlert kind env a).
Proof.
  intros [Hlast Hpair].
  destruct (Z.lt_ge_cases (date_now env - lastBeepAt a) 1200) as [Hc|Ho].
  - rewrite playIcuAlert_gate_closed by exact Hc. split; cbn [lastBeepAt calls].
    + intros c [Hin | Hin]%elem_of_app Hau; [auto|].
      apply list_elem_of_singleton in Hin. subst c. discriminate.
    + intros i j ci cj Hij Hi Hj Hai Haj.
      apply lookup_app_Some in Hj as [Hj | [Hlen Hj]].
      * rewrite lookup_app_l in Hi by (apply lookup_lt_Some in Hj; lia). eauto.
      * apply list_lookup_singleton_Some in Hj as [_ <-]. discriminate.
  - rewrite playIcuAlert_gate_open by exact Ho. split; cbn [lastBeepAt calls].
    + intros c [Hin | Hin]%elem_of_app Hau.
      * specialize (Hlast c Hin Hau). lia.
      * apply list_elem_of_singleton in Hin. subst c. cbn. lia.
    + intros i j ci cj Hij Hi Hj Hai Haj.
      apply lookup_app_Some in Hj as [Hj | [Hlen Hj]].
      * rewrite lookup_app_l in Hi by (apply lookup_lt_Some in Hj; lia). eauto.
      * apply list_lookup_singleton_Some in Hj as [Hz <-]. cbn [cue_at].
        rewrite lookup_app_l in Hi by lia.
        assert (ci ∈ calls a) as Hin by (eapply list_elem_of_lookup_2; exact Hi).
        specialize (Hlast ci Hin Hai). lia.
Qed.

Lemma played_on_trans a b c : played_on a b -> played_on b c -> played_on a c.
Proof. intros Hab Hbc. induction Hbc; [exact Hab | constructor; assumption]. Qed.

Lemma spaced_played_on a a' : spaced a -> played_on a a' -> spaced a'.
Proof. intros Ha H. induction H; [exact Ha | apply spaced_playIcuAlert; assumption]. Qed.

Lemma cue_for_played_on level env a : played_on a (cue_for level env a).
Proof.
  unfold cue_for.
  destruct (String.eqb level "Critical"), (String.eqb level "Medium");
    repeat constructor.
Qed.
End AudioFacts.

Section AudioClaims.
Import Main.

(** C9. [lastBeepAt] is written before the [try] block, so a call that
    passes the gate and whose synthesis throws still moves [lastBeepAt] to
    its own reading although no tone started; a call whose reading is less
    than 1200 ms later returns at the gate and leaves the state as it was,
    even when its own synthesis would have worked. *)
Theorem C9_failed_synthesis_consumes_window
    (kind kind' : string) (env env' : AudioEnv) (a : Audio) :
  1200 <= date_now env - lastBeepAt a ->
  synth_ok env = false ->
  date_now env' - date_now env < 1200 ->
  lastBeepAt (playIcuAlert kind env a) = date_now env
  /\ calls (playIcuAlert kind env a)
     = calls a ++ [mkCueCall kind (date_now env) SynthesisFailed]
  /\ lastBeepAt (playIcuAlert kind' env' (playIcuAlert kind env a)) = date_now env
  /\ calls (playIcuAlert kind' env' (playIcuAlert kind env a))
     = calls a ++ [mkCueCall kind (date_now env) SynthesisFailed;
                   mkCueCall kind' (date_now env') Debounced].
Proof.
  intros Hopen Hfail Hsoon.
  rewrite (playIcuAlert_gate_open kind env a Hopen), Hfail.
  rewrite playIcuAlert_gate_closed by (cbn [lastBeepAt]; exact Hsoon).
  cbn [lastBeepAt calls]. rewrite <- app_assoc. repeat split; reflexivity.
Qed.

Lemma C9_failed_synthesis_consumes_window_witness :
  calls (playIcuAlert "critical" (mkAudioEnv 6000 true)
           (playIcuAlert "medium" (mkAudioEnv 5000 false) (mkAudio 0 [])))
  = [mkCueCall "medium" 5000 SynthesisFailed; mkCueCall "critical" 6000 Debounced].
Proof.
  apply (C9_failed_synthesis_consumes_window "medium" "critical"
           (mkAudioEnv 5000 false) (mkAudioEnv 6000 true) (mkAudio 0 []));
    cbn; first [lia | reflexivity].
Defined.
End AudioClaims.

(** ** Risk styling and transition cues *)
Section RiskFacts.
Import Api Main.
Variable Number_toString : float -> string.

Local Abbreviation setRiskUI := (Main.setRiskUI Number_toString).

Lemma made_none s s' : audio s' = audio s -> made s s' = [].
Proof. intros H. unfold made. rewrite H. apply drop_all. Qed.

Lemma made_one s s' kind env :
  audio s' = playIcuAlert kind env (audio s) ->
  made s s' = [mkCueCall kind (date_now env) (verdict kind env (audio s))].
Proof.
  intros H. unfold made. rewrite H, playIcuAlert_calls. apply drop_app_length.
Qed.

Lemma transition_true level last :
  transition level last = true <-> level <> "" /\ level <> last.
Proof.
  unfold transition, JS.truthy. rewrite andb_true_iff, !negb_true_iff.
  rewrite !String.eqb_neq. reflexivity.
Qed.

Lemma transition_false level last :
  transition level last = false <-> level = "" \/ level = last.
Proof.
  unfold transition, JS.truthy. rewrite andb_false_iff, !negb_false_iff.
  rewrite !String.eqb_eq. reflexivity.
Qed.

Lemma setRiskUI_audio risk env s :
  audio (setRiskUI risk env s)
  = if transition (level_of risk) (lastRiskLevel s)
    then cue_for (level_of risk) env (audio s) else audio s.
Proof.
  unfold Main.setRiskUI. fold (transition (level_of risk) (lastRiskLevel s)).
  destruct (transition _ _); reflexivity.
Qed.

Lemma setRiskUI_last risk env s :
  lastRiskLevel (setRiskUI risk env s)
  = if transition (level_of risk) (lastRiskLevel s)
    then level_of risk else lastRiskLevel s.
Proof.
  unfold Main.setRiskUI. fold (transition (level_of risk) (lastRiskLevel s)).
  destruct (transition _ _); reflexivity.
Qed.

Lemma setRiskUI_view risk env s :
  view (setRiskUI risk env s)
  = restyle Number_toString (level_of risk) (score_of risk) (view s).
Proof.
  unfold Main.setRiskUI.
  destruct (JS.truthy _ && negb _); reflexivity.
Qed.

Lemma cleared_no_risk_class (classes : gset string) :
  (classes ∖ risk_classes) ∩ risk_classes = ∅.
Proof.
  apply set_eq. intros x.
  rewrite elem_of_intersection, elem_of_difference, elem_of_empty. tauto.
Qed.

(** After an evaluation with a level present, that level is the
    remembered one. *)
Lemma setRiskUI_remembers risk env s :
  level_of risk <> "" -> lastRiskLevel (setRiskUI risk env s) = level_of risk.
Proof.
  intros Hne. rewrite setRiskUI_last.
  destruct (transition _ _) eqn:E; [reflexivity|].
  apply transition_false in E as [E|E]; [contradiction | congruence].
Qed.

Lemma setRiskUI_no_cue risk env s :
  transition (level_of risk) (lastRiskLevel s) = false
  \/ (level_of risk <> "Critical" /\ level_of risk <> "Medium") ->
  audio (setRiskUI risk env s) = audio s.
Proof.
  rewrite setRiskUI_audio. intros [->|[Hc Hm]]; [reflexivity|].
  destruct (transition _ _); [|reflexivity].
  unfold cue_for. apply String.eqb_neq in Hc, Hm. rewrite Hc, Hm. reflexivity.
Qed.

Lemma setRiskUI_cue_critical risk env s :
  level_of risk = "Critical" -> lastRiskLevel s <> "Critical" ->
  audio (setRiskUI risk env s) = playIcuAlert "critical" env (audio s).
Proof.
  intros Hl Hlast. rewrite setRiskUI_audio, Hl.
  replace (transition "Critical" (lastRiskLevel s)) with true; [reflexivity|].
  symmetry. apply transition_true. split; [discriminate | congruence].
Qed.

Lemma setRiskUI_cue_medium risk env s :
  level_of risk = "Medium" -> lastRiskLevel s <> "Medium" ->
  audio (setRiskUI risk env s) = playIcuAlert "medium" env (audio s).
Proof.
  intros Hl Hlast. rewrite setRiskUI_audio, Hl.
  replace (transition "Medium" (lastRiskLevel s)) with true; [reflexivity|].
  symmetry. apply transition_true. split; [discriminate | congruence].
Qed.

Lemma setRiskUI_played_on risk env s :
  played_on (audio s) (audio (setRiskUI risk env s)).
Proof.
  rewrite setRiskUI_audio. destruct (transition _ _);
    [apply cue_for_played_on | constructor].
Qed.
End RiskFacts.

Section RiskClaims.
Import Api Main.
Variable Number_toString : float -> string.

Local Abbreviation setRiskUI := (Main.setRiskUI Number_toString).

(** C1. A call of [playIcuAlert] is made by [setRiskUI] only when the
    incoming level is non-empty and differs from the remembered one (so a
    tone can start only then); an evaluation at "Low" makes no call, in
    particular the first one; "Low" to "Medium" calls with "medium" and
    any change to "Critical" calls with "critical", the tone starting
    when the gate of [playIcuAlert] is open and the synthesis works; an
    evaluation at the remembered level makes no call; and the evaluations
    Low, Critical, Critical, Medium make calls at the second and the
    fourth only (the first and third transitions). *)
Theorem C1_transition_cues :
  (forall risk env s c,
      c ∈ made s (setRiskUI risk env s) ->
      level_of risk <> "" /\ level_of risk <> lastRiskLevel s)
  /\ (forall risk env s,
      level_of risk = "Low" -> made s (setRiskUI risk env s) = [])
  /\ (forall risk env s,
      lastRiskLevel s = "Low" -> level_of risk = "Medium" ->
      made s (setRiskUI risk env s)
      = [mkCueCall "medium" (date_now env) (verdict "medium" env (audio s))])
  /\ (forall risk env s,
      lastRiskLevel s <> "Critical" -> level_of risk = "Critical" ->
      made s (setRiskUI risk env s)
      = [mkCueCall "critical" (date_now env) (verdict "critical" env (audio s))])
  /\ (forall kind env a,
      1200 <= date_now env - lastBeepAt a -> synth_ok env = true ->
      verdict kind env a = Played (frequency_of kind))
  /\ (forall risk env s,
      level_of risk = lastRiskLevel s -> made s (setRiskUI risk env s) = [])
  /\ (forall r1 r2 r3 r4 e1 e2 e3 e4 s,
      level_of r1 = "Low" -> level_of r2 = "Critical" ->
      level_of r3 = "Critical" -> level_of r4 = "Medium" ->
      made s (setRiskUI r1 e1 s) = []
      /\ made (setRiskUI r1 e1 s) (setRiskUI r2 e2 (setRiskUI r1 e1 s))
         = [mkCueCall "critical" (date_now e2)
              (verdict "critical" e2 (audio (setRiskUI r1 e1 s)))]
      /\ made (setRiskUI r2 e2 (setRiskUI r1 e1 s))
              (setRiskUI r3 e3 (setRiskUI r2 e2 (setRiskUI r1 e1 s))) = []
      /\ made (setRiskUI r3 e3 (setRiskUI r2 e2 (setRiskUI r1 e1 s)))
              (setRiskUI r4 e4 (setRiskUI r3 e3 (setRiskUI r2 e2 (setRiskUI r1 e1 s))))
         = [mkCueCall "medium" (date_now e4)
              (verdict "medium" e4
                 (audio (setRiskUI r3 e3 (setRiskUI r2 e2 (setRiskUI r1 e1 s)))))]).
Proof.
  assert (Hlow : forall risk env s,
             level_of risk = "Low" -> made s (setRiskUI risk env s) = []).
  { intros risk env s Hl. apply made_none, setRiskUI_no_cue. right.
    rewrite Hl. split; discriminate. }
  assert (Hsame : forall risk env s,
             level_of risk = lastRiskLevel s -> made s (setRiskUI risk env s) = []).
  { intros risk env s Hl. apply made_none, setRiskUI_no_cue. left.
    apply transition_false. right. exact Hl. }
  assert (Hcrit : forall risk env s,
             lastRiskLevel s <> "Critical" -> level_of risk = "Critical" ->
             made s (setRiskUI risk env s)
             = [mkCueCall "critical" (date_now env) (verdict "critical" env (audio s))]).
  { intros risk env s Hlast Hl. apply made_one, setRiskUI_cue_critical; assumption. }
  assert (Hmed : forall risk env s,
             lastRiskLevel s <> "Medium" -> level_of risk = "Medium" ->
             made s (setRiskUI risk env s)
             = [mkCueCall "medium" (date_now env) (verdict "medium" env (audio s))]).
  { intros risk env s Hlast Hl. apply made_one, setRiskUI_cue_medium; assumption. }
  repeat apply conj.
  - intros risk env s c Hin. apply transition_true.
    destruct (transition (level_of risk) (lastRiskLevel s)) eqn:E; [reflexivity|].
    rewrite made_none in Hin by (apply setRiskUI_no_cue; left; exact E).
    inversion Hin.
  - exact Hlow.
  - intros risk env s Hlast Hl. apply Hmed; [rewrite Hlast; discriminate | exact Hl].
  - exact Hcrit.
  - intros kind env a Hopen Hok. unfold verdict.
    destruct (Z.ltb_spec (date_now env - lastBeepAt a) 1200); [lia|].
    rewrite Hok. reflexivity.
  - exact Hsame.
  - intros r1 r2 r3 r4 e1 e2 e3 e4 s H1 H2 H3 H4.
    assert (L1 : lastRiskLevel (setRiskUI r1 e1 s) = "Low").
    { rewrite setRiskUI_remembers; [exact H1 | rewrite H1; discriminate]. }
    assert (L2 : lastRiskLevel (setRiskUI r2 e2 (setRiskUI r1 e1 s)) = "Critical").
    { rewrite setRiskUI_remembers; [exact H2 | rewrite H2; discriminate]. }
    assert (L3 : lastRiskLevel
                   (setRiskUI r3 e3 (setRiskUI r2 e2 (setRiskUI r1 e1 s))) = "Critical").
    { rewrite setRiskUI_remembers; [exact H3 | rewrite H3; discriminate]. }
    repeat apply conj.
    + apply Hlow, H1.
    + apply Hcrit; [rewrite L1; discriminate | exact H2].
    + apply Hsame. rewrite L2. exact H3.
    + apply Hmed; [rewrite L3; discriminate | exact H4].
Qed.

(** C10. An evaluation without a level keeps [lastRiskLevel]; so in the
    evaluations [L], absent, [L] the last one makes no call of
    [playIcuAlert], although the middle one removed every risk class,
    restored the neutral colours and reset the text to "Risk: --". *)
Theorem C10_absent_level_keeps_memory :
  (forall risk env s,
      level_of risk = "" -> lastRiskLevel (setRiskUI risk env s) = lastRiskLevel s)
  /\ (forall rL rNone rL' e1 e2 e3 s,
      level_of rNone = "" -> level_of rL' = level_of rL ->
      lastRiskLevel (setRiskUI rNone e2 (setRiskUI rL e1 s))
        = lastRiskLevel (setRiskUI rL e1 s)
      /\ classList (view (setRiskUI rNone e2 (setRiskUI rL e1 s))) ∩ risk_classes = ∅
      /\ indicator_background (view (setRiskUI rNone e2 (setRiskUI rL e1 s)))
         = "rgba(169,183,223,.7)"
      /\ pill_borderColor (view (setRiskUI rNone e2 (setRiskUI rL e1 s)))
         = "rgba(255,255,255,.14)"
      /\ pill_color (view (setRiskUI rNone e2 (setRiskUI rL e1 s))) = ""
      /\ riskText (view (setRiskUI rNone e2 (setRiskUI rL e1 s))) = "Risk: --"
      /\ made (setRiskUI rNone e2 (setRiskUI rL e1 s))
              (setRiskUI rL' e3 (setRiskUI rNone e2 (setRiskUI rL e1 s))) = []).
Proof.
  assert (Hkeep : forall risk env s,
             level_of risk = "" ->
             lastRiskLevel (setRiskUI risk env s) = lastRiskLevel s).
  { intros risk env s Hl. rewrite setRiskUI_last, Hl. reflexivity. }
  split; [exact Hkeep|].
  intros rL rNone rL' e1 e2 e3 s Hnone Hsame.
  split; [apply Hkeep, Hnone|].
  rewrite setRiskUI_view, Hnone. cbn.
  split; [apply cleared_no_risk_class|]. do 4 (split; [reflexivity|]).
  apply made_none, setRiskUI_no_cue. left. apply transition_false.
  rewrite Hkeep by exact Hnone. rewrite Hsame.
  destruct (String.eqb_spec (level_of rL) "") as [E|E]; [left; exact E|].
  right. symmetry. apply setRiskUI_remembers, E.
Qed.
End RiskClaims.

(** Low, Critical, Critical, Medium on a fresh client, one second apart
    from 5000 on: a "critical" call at 6000 and a "medium" call at 8000,
    both starting a tone. *)
Lemma C1_transition_cues_witness :
  made (Main.alerting Sample.page) Sample.after_low = []
  /\ made Sample.after_low Sample.after_critical
     = [Main.mkCueCall "critical" 6000 (Main.Played 880)]
  /\ made Sample.after_critical Sample.after_repeat = []
  /\ made Sample.after_repeat Sample.after_medium
     = [Main.mkCueCall "medium" 8000 (Main.Played 660)].
Proof.
  exact (proj2 (proj2 (proj2 (proj2 (proj2 (proj2
           (C1_transition_cues Sample.Number_toString))))))
           (Sample.risk_at "Low") (Sample.risk_at "Critical")
           (Sample.risk_at "Critical") (Sample.risk_at "Medium")
           (Main.mkAudioEnv 5000 true) (Main.mkAudioEnv 6000 true)
           (Main.mkAudioEnv 7000 true) (Main.mkAudioEnv 8000 true)
           (Main.alerting Sample.page) eq_refl eq_refl eq_refl eq_refl).
Defined.

(** Medium, then a payload without a level, then Medium again: one call
    only, made by the first evaluation. *)
Lemma C10_absent_level_keeps_memory_witness :
  made (Main.setRiskUI Sample.Number_toString None (Main.mkAudioEnv 6000 true)
          (Main.setRiskUI Sample.Number_toString (Sample.risk_at "Medium")
             (Main.mkAudioEnv 5000 true) (Main.alerting Sample.page)))
       (Main.setRiskUI Sample.Number_toString (Sample.risk_at "Medium")
          (Main.mkAudioEnv 7000 true)
          (Main.setRiskUI Sample.Number_toString None (Main.mkAudioEnv 6000 true)
             (Main.setRiskUI Sample.Number_toString (Sample.risk_at "Medium")
                (Main.mkAudioEnv 5000 true) (Main.alerting Sample.page))))
  = [].
Proof.
  apply (proj2 (C10_absent_level_keeps_memory Sample.Number_toString)
           (Sample.risk_at "Medium") None (Sample.risk_at "Medium")
           (Main.mkAudioEnv 5000 true) (Main.mkAudioEnv 6000 true)
           (Main.mkAudioEnv 7000 true) (Main.alerting Sample.page)
           eq_refl eq_refl).
Defined.

(** ** The event loop of src/static/app.js *)
Section MainLoopFacts.
Import Api Dom Common Main.
Variable Number_toString : float -> string.
Variable Math_pow : float -> float -> float.
Variable encodeURIComponent : string -> string.
Variable String_trim : string -> string.

Local Abbreviation step :=
  (Main.step Number_toString Math_pow encodeURIComponent String_trim).
Local Abbreviation run :=
  (Main.run Number_toString Math_pow encodeURIComponent String_trim).
Local Abbreviation setRiskUI := (Main.setRiskUI Number_toString).
Local Abbreviation refreshVitals_resume := (Main.refreshVitals_resume Number_toString).
Local Abbreviation sendChat_revealed := (Main.sendChat_revealed Number_toString).
Local Abbreviation sos_response := (Main.sos_response Number_toString).

Lemma refreshVitals_resume_audio data env aenv st :
  played_on (audio (alerting st))
            (audio (alerting (refreshVitals_resume data env aenv st))).
Proof. cbn. apply setRiskUI_played_on. Qed.

Lemma sendChat_revealed_audio env st :
  played_on (audio (alerting st)) (audio (alerting (sendChat_revealed env st))).
Proof.
  unfold Main.sendChat_revealed. destruct (revealing st) as [data|]; [|constructor].
  destruct (chat_vitals data), (chat_risk data), (auto_emergency data) as [[[] [h|]]|];
    cbn; repeat first [ apply played_on_refl | apply setRiskUI_played_on
                      | apply played_on_call ].
Qed.

Lemma sos_response_audio r aenv st :
  played_on (audio (alerting st)) (audio (alerting (sos_response r aenv st))).
Proof. destruct r; cbn; repeat constructor. Qed.

(** A turn of the event loop touches the audio state through
    [playIcuAlert] only. *)
Lemma step_audio ev st :
  played_on (audio (alerting st)) (audio (alerting (fst (step ev st)))).
Proof.
  destruct ev as [[]| |[]| | | | | | | |]; unfold Main.step;
    destruct (phase st); cbn [fst];
    try apply played_on_refl;
    try apply refreshVitals_resume_audio;
    try apply sendChat_revealed_audio;
    try apply sos_response_audio.
  - unfold Main.sendChat. destruct (busy st); [constructor|].
    destruct (negb _); constructor.
  - destruct r; constructor.
Qed.

Lemma run_audio evs st :
  played_on (audio (alerting st)) (audio (alerting (fst (run evs st)))).
Proof.
  revert st. induction evs as [|ev evs IH]; intros st; [constructor|].
  cbn [Main.run]. pose proof (step_audio ev st) as Hs.
  destruct (step ev st) as [st1 out1]. specialize (IH st1).
  destruct (run evs st1) as [st2 out2]. cbn [fst] in *.
  eapply played_on_trans; eassumption.
Qed.
End MainLoopFacts.

Section SpacingClaims.
Import Api Dom Common Main.
Variable Number_toString : float -> string.
Variable Math_pow : float -> float -> float.
Variable encodeURIComponent : string -> string.
Variable String_trim : string -> string.

Local Abbreviation run :=
  (Main.run Number_toString Math_pow encodeURIComponent String_trim).
Local Abbreviation cue_log :=
  (cue_log Number_toString Math_pow encodeURIComponent String_trim).

(** C3. Whatever the client goes through (polls, chat turns, SOS, any
    number of risk transitions), two calls of [playIcuAlert] that both
    started a tone have [Date.now()] readings at least 1200 ms apart; and
    when a call starts a tone, a second call less than 1200 ms later is
    silent, and a third call more than 1200 ms after the first starts a
    tone again (its synthesis working). *)
Theorem C3_minimum_cue_interval :
  (forall page storage evs (i j : nat) ci cj,
      (i < j)%nat ->
      cue_log page storage evs !! i = Some ci ->
      cue_log page storage evs !! j = Some cj ->
      audible ci = true -> audible cj = true ->
      1200 <= cue_at cj - cue_at ci)
  /\ (forall k1 k2 k3 e1 e2 e3 a,
      1200 <= date_now e1 - lastBeepAt a -> synth_ok e1 = true ->
      date_now e2 - date_now e1 < 1200 ->
      1200 < date_now e3 - date_now e1 -> synth_ok e3 = true ->
      calls (playIcuAlert k3 e3 (playIcuAlert k2 e2 (playIcuAlert k1 e1 a)))
      = calls a ++ [mkCueCall k1 (date_now e1) (Played (frequency_of k1));
                    mkCueCall k2 (date_now e2) Debounced;
                    mkCueCall k3 (date_now e3) (Played (frequency_of k3))]).
Proof.
  split.
  - intros page storage evs i j ci cj Hij Hi Hj Hai Haj.
    assert (Hsp : spaced (audio (alerting (fst (run evs (start page storage)))))).
    { eapply spaced_played_on; [|apply run_audio]. apply spaced_initial. }
    destruct Hsp as [_ Hpair].
    specialize (Hpair i j ci cj Hij Hi Hj Hai Haj). lia.
  - intros k1 k2 k3 e1 e2 e3 a H1 Hok1 H2 H3 Hok3.
    rewrite (playIcuAlert_gate_open k1 e1 a H1), Hok1.
    rewrite (playIcuAlert_gate_closed k2 e2) by (cbn [lastBeepAt]; exact H2).
    rewrite (playIcuAlert_gate_open k3 e3) by (cbn [lastBeepAt]; lia).
    rewrite Hok3. cbn [calls]. rewrite <- !app_assoc. reflexivity.
Qed.
End SpacingClaims.

(** A Critical cue at 5000, a request 800 ms later, a third 1300 ms after
    the first. *)
Lemma C3_minimum_cue_interval_witness :
  Main.calls
    (Main.playIcuAlert "critical" (Main.mkAudioEnv 6300 true)
       (Main.playIcuAlert "medium" (Main.mkAudioEnv 5800 true)
          (Main.playIcuAlert "critical" (Main.mkAudioEnv 5000 true) (Main.mkAudio 0 []))))
  = [Main.mkCueCall "critical" 5000 (Main.Played 880);
     Main.mkCueCall "medium" 5800 Main.Debounced;
     Main.mkCueCall "critical" 6300 (Main.Played 880)].
Proof.
  apply (proj2 (C3_minimum_cue_interval Sample.Number_toString Sample.Math_pow
                  Sample.encodeURIComponent Sample.String_trim)
           "critical" "medium" "critical"
           (Main.mkAudioEnv 5000 true) (Main.mkAudioEnv 5800 true)
           (Main.mkAudioEnv 6300 true) (Main.mkAudio 0 []));
    cbn; first [lia | reflexivity].
Defined.

(** ** The session identifier *)
Section SessionFacts.
Import Api Dom Common Main.
Variable Number_toString : float -> string.
Variable Math_pow : float -> float -> float.
Variable encodeURIComponent : string -> string.
Variable String_trim : string -> string.

Local Abbreviation step :=
  (Main.step Number_toString Math_pow encodeURIComponent String_trim).
Local Abbreviation run :=
  (Main.run Number_toString Math_pow encodeURIComponent String_trim).
Local Abbreviation attaches := (attaches encodeURIComponent).

Lemma sendChat_revealed_session env st :
  session (sendChat_revealed Number_toString env st) = session st.
Proof.
  unfold sendChat_revealed. destruct (revealing st) as [data|]; [|reflexivity].
  destruct (chat_vitals data), (chat_risk data), (auto_emergency data) as [[[] [h|]]|];
    reflexivity.
Qed.

Lemma sendChat_session text st :
  session (fst (sendChat String_trim text st)) = session st.
Proof. unfold sendChat. destruct (negb _); reflexivity. Qed.

(** A turn of the event loop keeps the session as it is, or adopts the
    identifier that came with a successful response. *)
Lemma step_session ev st :
  session (fst (step ev st)) = session st
  \/ exists id, issued ev = Some id /\ session (fst (step ev st)) = adopt id (session st).
Proof.
  destruct ev as [[]| |[]| | | | [] | | | |[]]; unfold Main.step;
    destruct (phase st); cbn [fst issued];
    try (left; reflexivity);
    try (right; eexists; split; reflexivity).
  - left. destruct (busy st); [reflexivity | apply sendChat_session].
  - left. apply sendChat_revealed_session.
Qed.

(** Every request of a turn carries the identifier the turn found. *)
Lemma step_attaches ev st r :
  sessionId (session st) <> "" ->
  r ∈ snd (step ev st) -> attaches (sessionId (session st)) r.
Proof.
  intros Hid. apply String.eqb_neq in Hid.
  assert (Hreq : forall st', session st' = session st ->
            attaches (sessionId (session st)) (refreshVitals_request encodeURIComponent st')).
  { intros st' E. unfold refreshVitals_request, JS.truthy. rewrite E, Hid. reflexivity. }
  destruct ev as [[]| |[]| | | | | | | |]; unfold Main.step;
    destruct (phase st); cbn [snd]; intros Hin;
    try (inversion Hin; fail).
  - apply list_elem_of_singleton in Hin. subst r. apply Hreq. reflexivity.
  - apply list_elem_of_singleton in Hin. subst r. apply Hreq. reflexivity.
  - destruct (busy st); [inversion Hin|].
    unfold sendChat in Hin. destruct (negb _); [inversion Hin|].
    cbn in Hin. apply list_elem_of_singleton in Hin. subst r. reflexivity.
  - cbn in Hin. apply list_elem_of_singleton in Hin. subst r. reflexivity.
Qed.

Lemma run_session evs st :
  sessionId (session (fst (run evs st))) = sessionId (session st)
  \/ exists ev, ev ∈ evs /\ issued ev = Some (sessionId (session (fst (run evs st)))).
Proof.
  revert st. induction evs as [|ev evs IH]; intros st; [left; reflexivity|].
  cbn [Main.run]. pose proof (step_session ev st) as Hs.
  destruct (step ev st) as [st1 out1]. specialize (IH st1).
  destruct (run evs st1) as [st2 out2]. cbn [fst] in *.
  destruct IH as [IH | (ev' & Hin & Hiss)].
  - rewrite IH. destruct Hs as [-> | (id & Hiss & ->)]; [left; reflexivity|].
    right. exists ev. split; [left | exact Hiss].
  - right. exists ev'. split; [right; exact Hin | exact Hiss].
Qed.
End SessionFacts.

Section SessionClaims.
Import Api Dom Common Main.
Variable Number_toString : float -> string.
Variable Math_pow : float -> float -> float.
Variable encodeURIComponent : string -> string.
Variable String_trim : string -> string.

Local Abbreviation step :=
  (Main.step Number_toString Math_pow encodeURIComponent String_trim).
Local Abbreviation run :=
  (Main.run Number_toString Math_pow encodeURIComponent String_trim).
Local Abbreviation attaches := (attaches encodeURIComponent).

(** C4, on src/static/app.js. With a non-empty identifier in [sessionId],
    every request a turn of the event loop sends to /api/vitals,
    /api/ask_ai or /api/sos carries it; a successful response of any of the
    three makes its [session_id] the value of [sessionId] and of the
    [localStorage] entry; [sessionId] and the stored entry change in no other
    way, so the client neither clears nor invents an identifier: after any
    run, [sessionId] is the one found in [localStorage] at load (or empty) or
    one a response carried. *)
Theorem C4_session_identifier :
  (forall ev st r,
      sessionId (session st) <> "" ->
      r ∈ snd (step ev st) -> attaches (sessionId (session st)) r)
  /\ (forall ev st id,
      phase st = Running -> issued ev = Some id ->
      sessionId (session (fst (step ev st))) = id
      /\ localStorage (session (fst (step ev st))) !! sessionKey = Some id)
  /\ (forall data env aenv st,
      phase st = AwaitVitals ->
      sessionId (session (fst (step (VitalsResponse (Ok data) env aenv) st)))
      = vitals_session_id data
      /\ localStorage (session (fst (step (VitalsResponse (Ok data) env aenv) st)))
         !! sessionKey = Some (vitals_session_id data))
  /\ (forall ev st,
      sessionId (session (fst (step ev st))) <> sessionId (session st) ->
      issued ev = Some (sessionId (session (fst (step ev st)))))
  /\ (forall ev st,
      localStorage (session (fst (step ev st))) !! sessionKey
        <> localStorage (session st) !! sessionKey ->
      exists id, issued ev = Some id
                 /\ localStorage (session (fst (step ev st))) !! sessionKey = Some id)
  /\ (forall page storage evs,
      sessionId (session (fst (run evs (start page storage))))
        = default "" (storage !! sessionKey)
      \/ exists ev, ev ∈ evs
           /\ issued ev
              = Some (sessionId (session (fst (run evs (start page storage)))))).
Proof.
  repeat apply conj.
  - intros ev st r. apply step_attaches.
  - intros ev st id Hrun Hiss.
    destruct ev as [[]| |[]| | | | [] | | | |[]]; try discriminate Hiss;
      injection Hiss as <-; unfold Main.step; rewrite Hrun; cbn;
      (split; [reflexivity | apply lookup_insert_eq]).
  - intros data env aenv st Hph. unfold Main.step. rewrite Hph. cbn.
    split; [reflexivity | apply lookup_insert_eq].
  - intros ev st Hne.
    destruct (step_session Number_toString Math_pow encodeURIComponent String_trim ev st)
      as [E | (id & Hiss & E)].
    + rewrite E in Hne. contradiction.
    + rewrite E. exact Hiss.
  - intros ev st Hne.
    destruct (step_session Number_toString Math_pow encodeURIComponent String_trim ev st)
      as [E | (id & Hiss & E)].
    + rewrite E in Hne. contradiction.
    + exists id. split; [exact Hiss|]. rewrite E. apply lookup_insert_eq.
  - intros page storage evs.
    destruct (run_session Number_toString Math_pow encodeURIComponent String_trim
                evs (start page storage)) as [E | H]; [left | right; exact H].
    rewrite E. cbn. unfold JS.or_else. destruct (JS.truthy _) eqn:T; [reflexivity|].
    unfold JS.truthy in T. apply negb_false_iff, String.eqb_eq in T. symmetry. exact T.
Qed.
End SessionClaims.

(** A running client that holds the identifier "abc" polls with it. *)
Lemma C4_session_identifier_witness :
  attaches Sample.encodeURIComponent "abc" (Main.GET "/api/vitals?session_id=abc").
Proof.
  apply (proj1 (C4_session_identifier Sample.Number_toString Sample.Math_pow
                  Sample.encodeURIComponent Sample.String_trim)
           Main.Tick
           (Main.set_phase Main.Running
              (Main.set_session (Common.mkSession "abc" ∅) Sample.page))).
  - cbn. discriminate.
  - cbn. left.
Defined.

(** ** The auto-emergency path of sendChat *)
Section EmergencyClaims.
Import Api Dom Common Main.
Variable Number_toString : float -> string.

Local Abbreviation sendChat_revealed := (Main.sendChat_revealed Number_toString).
Local Abbreviation setRiskUI := (Main.setRiskUI Number_toString).
Local Abbreviation audio_before_emergency := (audio_before_emergency Number_toString).

(** C5. When the chat response whose reply has just been typed out has
    [auto_emergency.enabled] and a [nearest_hospital], the client writes
    into [sosResult] the line made of "AUTO EMERGENCY: ", the name of the
    hospital, its distance in km, its ETA in minutes and its phone number,
    and calls [playIcuAlert("critical")] as the last call of the turn,
    whatever the remembered and the incoming risk level are; when the level
    did not change this is the only call of the turn. Like every call it
    then meets the 1200 ms gate. *)
Theorem C5_auto_emergency_forces_cue
    (env : ChatEnv) (st : State) (data : ChatData) (ae : AutoEmergency)
    (h : Hospital) :
  revealing st = Some data ->
  auto_emergency data = Some ae ->
  enabled ae = true ->
  nearest_hospital ae = Some h ->
  sosResult (sendChat_revealed env st)
  = "AUTO EMERGENCY: " +:+ name h +:+ " • " +:+ Number_toString (distance_km h)
    +:+ " km • ETA " +:+ Number_toString (eta_minutes h) +:+ " min • " +:+ phone h
  /\ calls (audio (alerting (sendChat_revealed env st)))
     = calls (audio_before_emergency data env st)
       ++ [mkCueCall "critical" (date_now (chat_emergency_audio env))
             (verdict "critical" (chat_emergency_audio env)
                (audio_before_emergency data env st))]
  /\ (transition (level_of (chat_risk data)) (lastRiskLevel (alerting st)) = false ->
      audio_before_emergency data env st = audio (alerting st)).
Proof.
  intros Hrev Hae Hen Hh. unfold Main.sendChat_revealed, audio_before_emergency.
  rewrite Hrev, Hae, Hen, Hh.
  destruct (chat_vitals data), (chat_risk data) as [r|]; cbn;
    (split; [reflexivity|]); (split; [apply playIcuAlert_calls|]);
    intros Htr; try reflexivity;
    apply setRiskUI_no_cue; left; exact Htr.
Qed.
End EmergencyClaims.

(** A reply that declares an emergency while the level stays Critical: the
    line names the hospital, and the only call of the turn is the forced
    one. *)
Lemma C5_auto_emergency_forces_cue_witness :
  Main.sosResult
    (Main.sendChat_revealed Sample.Number_toString
       (Main.mkChatEnv Sample.snapshot_env (Main.mkAudioEnv 9000 true)
          (Main.mkAudioEnv 9001 true))
       (Main.set_revealing
          (Some (Api.mkChatData "abc" "Call for help now." None
                   (Sample.risk_at "Critical")
                   (Some (Api.mkAutoEmergency true
                            (Some (Api.mkHospital "Beni Suef General" 3 7 "122"))))))
          (Main.set_alerting
             (Main.mkAlerting (Main.view (Main.alerting Sample.page)) "Critical"
                (Main.mkAudio 0 []))
             Sample.page)))
  = "AUTO EMERGENCY: Beni Suef General • 3 km • ETA 7 min • 122"
  /\ Main.calls (Main.audio (Main.alerting
    (Main.sendChat_revealed Sample.Number_toString
       (Main.mkChatEnv Sample.snapshot_env (Main.mkAudioEnv 9000 true)
          (Main.mkAudioEnv 9001 true))
       (Main.set_revealing
          (Some (Api.mkChatData "abc" "Call for help now." None
                   (Sample.risk_at "Critical")
                   (Some (Api.mkAutoEmergency true
                            (Some (Api.mkHospital "Beni Suef General" 3 7 "122"))))))
          (Main.set_alerting
             (Main.mkAlerting (Main.view (Main.alerting Sample.page)) "Critical"
                (Main.mkAudio 0 []))
             Sample.page)))))
  = [Main.mkCueCall "critical" 9001 (Main.Played 880)].
Proof.
  pose proof (C5_auto_emergency_forces_cue Sample.Number_toString
    (Main.mkChatEnv Sample.snapshot_env (Main.mkAudioEnv 9000 true)
       (Main.mkAudioEnv 9001 true))
    (Main.set_revealing
       (Some (Api.mkChatData "abc" "Call for help now." None
                (Sample.risk_at "Critical")
                (Some (Api.mkAutoEmergency true
                         (Some (Api.mkHospital "Beni Suef General" 3 7 "122"))))))
       (Main.set_alerting
          (Main.mkAlerting (Main.view (Main.alerting Sample.page)) "Critical"
             (Main.mkAudio 0 []))
          Sample.page))
    _ _ _ eq_refl eq_refl eq_refl eq_refl) as (Htext & Hcalls & _).
  split.
  - rewrite Htext. vm_compute. reflexivity.
  - rewrite Hcalls. reflexivity.
Defined.

(** ** Failed fetches: at boot and from the interval *)
Section PollingFacts.
Import Api Dom Common.
Variable Number_toString : float -> string.
Variable Math_pow : float -> float -> float.
Variable encodeURIComponent : string -> string.
Variable String_trim : string -> string.

Local Abbreviation main_step :=
  (Main.step Number_toString Math_pow encodeURIComponent String_trim).
Local Abbreviation main_run :=
  (Main.run Number_toString Math_pow encodeURIComponent String_trim).

Lemma setToast_shows (text : string) :
  text <> "" -> shows (setToast text) text.
Proof.
  intros H. unfold setToast, JS.truthy. apply String.eqb_neq in H. rewrite H.
  split; reflexivity.
Qed.

Lemma sendChat_revealed_phase env st :
  Main.phase (Main.sendChat_revealed Number_toString env st) = Main.phase st.
Proof.
  unfold Main.sendChat_revealed. destruct (Main.revealing st) as [data|]; [|reflexivity].
  destruct (chat_vitals data), (chat_risk data), (auto_emergency data) as [[[] [h|]]|];
    reflexivity.
Qed.

(** Once [boot] has reached its end, the client stays in that phase. *)
Lemma running_is_stable ev st :
  Main.phase st = Main.Running -> Main.phase (fst (main_step ev st)) = Main.Running.
Proof.
  intros Hrun.
  destruct ev as [[]| |[]| | | | [] | | | |[]]; unfold Main.step; rewrite ?Hrun;
    cbn [fst]; try exact Hrun; try reflexivity.
  - destruct (Main.busy st); [exact Hrun|]. unfold Main.sendChat.
    destruct (negb _); exact Hrun.
  - rewrite sendChat_revealed_phase. exact Hrun.
Qed.

(** A client whose [boot] was rejected handles no event but animation
    frames: it sends nothing and stays halted. *)
Lemma halted_is_final evs st :
  Main.phase st = Main.Halted ->
  Main.phase (fst (main_run evs st)) = Main.Halted /\ snd (main_run evs st) = [].
Proof.
  revert st. induction evs as [|ev evs IH]; intros st Hh; [split; [exact Hh | reflexivity]|].
  cbn [Main.run].
  assert (Hs : Main.phase (fst (main_step ev st)) = Main.Halted
               /\ snd (main_step ev st) = []).
  { destruct ev as [[]| |[]| | | | | | | |]; unfold Main.step; rewrite ?Hh;
      split; first [exact Hh | reflexivity]. }
  destruct (main_step ev st) as [st1 out1]. cbn [fst snd] in Hs.
  destruct Hs as [Hp ->]. specialize (IH st1 Hp).
  destruct (main_run evs st1) as [st2 out2]. exact IH.
Qed.
End PollingFacts.

Section PollingClaims.
Import Api Dom Common.
Variable Number_toString : float -> string.
Variable Math_pow : float -> float -> float.
Variable encodeURIComponent : string -> string.
Variable String_trim : string -> string.

Local Abbreviation main_step :=
  (Main.step Number_toString Math_pow encodeURIComponent String_trim).
Local Abbreviation backend_step :=
  (Backend.step Number_toString Math_pow encodeURIComponent String_trim).

(** C8. In src/static/app.js a failure of the fetch awaited by [boot] shows
    the toast "Boot error: <message>", and in src/backend/static/app.js a
    failure of the fetch started by [boot] shows "Vitals error: <message>";
    in both builds a failed fetch started by the interval changes nothing at
    all (no toast is written, nothing is sent in reaction), and the client
    stays in the phase in which every tick of the interval sends the next
    request. *)
Theorem C8_boot_failure_shown_poll_failure_swallowed :
  (forall m env aenv st,
      Main.phase st = Main.AwaitVitals ->
      shows (Main.toast (fst (main_step (Main.VitalsResponse (Err m) env aenv) st)))
            ("Boot error: " +:+ m))
  /\ (forall m env aenv st,
      Main.phase st = Main.Running ->
      main_step (Main.VitalsResponse (Err m) env aenv) st = (st, []))
  /\ (forall ev st,
      Main.phase st = Main.Running ->
      Main.phase (fst (main_step ev st)) = Main.Running)
  /\ (forall st,
      Main.phase st = Main.Running ->
      main_step Main.Tick st = (st, [Main.refreshVitals_request encodeURIComponent st]))
  /\ (forall m env st,
      Backend.boot_fetch st = true ->
      shows (Backend.toast
               (fst (backend_step (Backend.BootVitalsResponse (Err m) env) st)))
            ("Vitals error: " +:+ m))
  /\ (forall m env st,
      backend_step (Backend.PollResponse (Err m) env) st = (st, []))
  /\ (forall st,
      backend_step Backend.Tick st
      = (st, [Backend.refreshVitals_request encodeURIComponent st])).
Proof.
  repeat apply conj.
  - intros m env aenv st Hph. unfold Main.step. rewrite Hph. cbn [fst].
    apply setToast_shows. discriminate.
  - intros m env aenv st Hph. unfold Main.step. rewrite Hph. reflexivity.
  - apply running_is_stable.
  - intros st Hph. unfold Main.step. rewrite Hph. reflexivity.
  - intros m env st Hb. unfold Backend.step. rewrite Hb. cbn [fst].
    apply setToast_shows. discriminate.
  - reflexivity.
  - reflexivity.
Qed.

(** In src/static/app.js the fetch at line 513 is awaited inside [boot]:
    when it fails, [boot] is rejected before line 514 installs the interval
    and before the chat and SOS handlers are attached, so the client sends
    no request ever after. *)
Theorem main_boot_failure_is_final m env aenv st evs :
  Main.phase st = Main.AwaitVitals ->
  Main.phase (fst (main_step (Main.VitalsResponse (Err m) env aenv) st)) = Main.Halted
  /\ snd (Main.run Number_toString Math_pow encodeURIComponent String_trim evs
            (fst (main_step (Main.VitalsResponse (Err m) env aenv) st))) = [].
Proof.
  intros Hph.
  assert (Hh : Main.phase (fst (main_step (Main.VitalsResponse (Err m) env aenv) st))
               = Main.Halted)
    by (unfold Main.step; rewrite Hph; reflexivity).
  split; [exact Hh|]. apply halted_is_final. exact Hh.
Qed.
End PollingClaims.

(** After a failed boot fetch, ticks and clicks send nothing. *)
Lemma main_boot_failure_is_final_witness :
  snd (Main.run Sample.Number_toString Sample.Math_pow Sample.encodeURIComponent
         Sample.String_trim [Main.Tick; Main.SosClick; Main.Tick]
         (fst (Main.step Sample.Number_toString Sample.Math_pow
                 Sample.encodeURIComponent Sample.String_trim
                 (Main.VitalsResponse (Api.Err "Failed to fetch") Sample.snapshot_env
                    (Main.mkAudioEnv 9000 true))
                 (Main.set_phase Main.AwaitVitals Sample.page))))
  = [].
Proof.
  apply (main_boot_failure_is_final Sample.Number_toString Sample.Math_pow
           Sample.encodeURIComponent Sample.String_trim).
  reflexivity.
Defined.

(** A poll that fails while the client runs leaves it as it was. *)
Lemma C8_boot_failure_shown_poll_failure_swallowed_witness :
  Main.step Sample.Number_toString Sample.Math_pow Sample.encodeURIComponent
    Sample.String_trim
    (Main.VitalsResponse (Api.Err "Failed to fetch") Sample.snapshot_env
       (Main.mkAudioEnv 9000 true))
    (Main.set_phase Main.Running Sample.page)
  = (Main.set_phase Main.Running Sample.page, []).
Proof.
  apply (proj1 (proj2 (C8_boot_failure_shown_poll_failure_swallowed
                         Sample.Number_toString Sample.Math_pow
                         Sample.encodeURIComponent Sample.String_trim))).
  reflexivity.
Defined.

(** ** The numeric animator *)
Section AnimatorFacts.
Import Animator.
Variable Number_toString : float -> string.
Variable Math_pow : float -> float -> float.
Hypothesis Math_pow_zero : Math_pow 0 3 = 0%float.

Local Abbreviation frame := (Animator.frame Number_toString Math_pow).
Local Abbreviation run_frames := (Animator.run_frames Number_toString Math_pow).
Local Abbreviation toFixed := (JS.toFixed Number_toString).

Lemma frame_keeps_dataset tw now el :
  dataset_value (fst (frame tw now el)) = dataset_value el.
Proof. reflexivity. Qed.

Lemma frame_at_the_end tw now el :
  progress tw now = 1%float ->
  frame tw now el
  = ({| dataset_value := dataset_value el;
        textContent := toFixed (landing tw) (decimals tw) |}, false).
Proof.
  intros H. unfold Animator.frame, eased, landing. rewrite H.
  change (1 - 1)%float with 0%float. rewrite Math_pow_zero. reflexivity.
Qed.

Lemma run_frames_keeps_dataset tw nows el :
  dataset_value (fst (run_frames tw nows el)) = dataset_value el.
Proof.
  revert el. induction nows as [|now nows IH]; intros el; [reflexivity|].
  cbn [Animator.run_frames].
  destruct (frame tw now el) as [el' again] eqn:E.
  assert (dataset_value el' = dataset_value el) as Hd
    by (rewrite <- (frame_keeps_dataset tw now el), E; reflexivity).
  destruct again; [rewrite IH|]; exact Hd.
Qed.

(** Frames that come before the duration has elapsed, then one that comes
    after: the animation is over and the text is the landing value. *)
Lemma run_frames_to_the_end tw early last rest el :
  Forall (fun now => (progress tw now <? 1)%float = true) early ->
  progress tw last = 1%float ->
  run_frames tw (early ++ last :: rest) el
  = ({| dataset_value := dataset_value el;
        textContent := toFixed (landing tw) (decimals tw) |}, true).
Proof.
  intros Hearly Hlast. revert el.
  induction Hearly as [|now early Hnow _ IH]; intros el.
  - cbn [app Animator.run_frames]. rewrite frame_at_the_end by exact Hlast. reflexivity.
  - cbn [app Animator.run_frames].
    destruct (frame tw now el) as [el' again] eqn:E.
    assert (again = true) as -> by (unfold Animator.frame in E; congruence).
    rewrite IH. f_equal. f_equal.
    rewrite <- (frame_keeps_dataset tw now el), E. reflexivity.
Qed.

(** The target is in [el.dataset.value] as soon as [animateNumber] returns
    and no frame changes it, so a call made while frames are still due
    starts from the previous target, not from the text on screen. *)
Lemma animateNumber_starts_from_previous_target el v d t0 nows v' d' t1 :
  dataset_value (fst (animateNumber el v d t0)) = Some v
  /\ current (snd (animateNumber
                     (fst (run_frames (snd (animateNumber el v d t0)) nows
                             (fst (animateNumber el v d t0))))
                     v' d' t1))
     = JS.Number_of_String v.
Proof.
  split; [reflexivity|]. cbn [animateNumber snd fst current].
  unfold read_value. rewrite run_frames_keeps_dataset. reflexivity.
Qed.

(** When the double sum gives back the target, the text is the target to
    [d] decimals. *)
Lemma run_frames_exact_landing tw early last rest el :
  Forall (fun now => (progress tw now <? 1)%float = true) early ->
  progress tw last = 1%float ->
  landing tw = target tw ->
  textContent (fst (run_frames tw (early ++ last :: rest) el))
  = toFixed (target tw) (decimals tw).
Proof.
  intros He Hl Hx. rewrite run_frames_to_the_end by assumption.
  cbn [fst textContent]. rewrite Hx. reflexivity.
Qed.

(** C6. [animateNumber(el, 120.45, 1)] on an element whose previous target
    was 55.1, with frames until the 420 ms have elapsed: the target is
    recorded at once, but the last frame formats
    [55.1 + (120.45 - 55.1) * 1], which in binary64 is 120.44999999999999,
    and the text ends as "120.4", while 120.45 to one decimal is "120.5". *)
Theorem C6_last_frame_misses_target :
  dataset_value (fst (animateNumber pulse_at_55_1 120.45 1 1000)) = Some 120.45%float
  /\ run_frames (snd (animateNumber pulse_at_55_1 120.45 1 1000))
       [1016.7; 1200; 1420]%float
       (fst (animateNumber pulse_at_55_1 120.45 1 1000))
     = ({| dataset_value := Some 120.45%float; textContent := "120.4" |}, true)
  /\ toFixed 120.45 1 = "120.5".
Proof.
  split; [reflexivity|]. split; [|vm_compute; reflexivity].
  rewrite (run_frames_to_the_end _ [1016.7; 1200]%float 1420%float []).
  - vm_compute. reflexivity.
  - repeat constructor.
  - vm_compute. reflexivity.
Qed.
End AnimatorFacts.

(** The same run with [x * x * x] standing for [Math.pow(x, 3)]. *)
Lemma C6_last_frame_misses_target_witness :
  Animator.textContent
    (fst (Animator.run_frames Sample.Number_toString Sample.Math_pow
            (snd (Animator.animateNumber pulse_at_55_1 120.45 1 1000))
            [1016.7; 1200; 1420]%float
            (fst (Animator.animateNumber pulse_at_55_1 120.45 1 1000))))
  = "120.4"
  /\ JS.toFixed Sample.Number_toString 120.45 1 = "120.5".
Proof.
  pose proof (C6_last_frame_misses_target Sample.Number_toString Sample.Math_pow
                eq_refl) as (_ & Hrun & Hfmt).
  rewrite Hrun. split; [reflexivity | exact Hfmt].
Defined.


(** * Further properties of the code *)

Set Warnings "-clear-no-such-hyp".

(** ** The chart arrays in every state *)
Section BufferInvariant.
Import Api Dom Common.
Variable Number_toString : float -> string.
Variable Math_pow : float -> float -> float.
Variable encodeURIComponent : string -> string.
Variable String_trim : string -> string.
Local Open Scope nat_scope.

(** The loop cuts the series to its last [maxPoints] values whatever the
    labels are. *)
Lemma shift_while_over_series (cap : nat) (series : list float) :
  forall labels : list string,
    pulseSeries (shift_while_over cap labels series)
    = drop (length series - cap) series.
Proof.
  induction series as [|x series IH]; intros labels; [reflexivity|].
  cbn [shift_while_over].
  destruct (Nat.ltb_spec cap (length (x :: series))) as [Hlt|Hge]; cbn [length] in *.
  - rewrite IH.
    replace (S (length series) - cap) with (S (length series - cap)) by lia.
    reflexivity.
  - replace (S (length series) - cap) with 0 by lia. reflexivity.
Qed.

Lemma push_point_series cap t x b :
  pulseSeries (push_point cap t x b) = recent cap (pulseSeries b ++ [x]).
Proof. unfold push_point, recent. apply shift_while_over_series. Qed.

Lemma push_point_well_formed cap t x b :
  length (pulseLabels b) = length (pulseSeries b) ->
  well_formed cap (push_point cap t x b).
Proof.
  intros Hal. unfold push_point, well_formed.
  rewrite shift_while_over_drop by (rewrite !length_app, Hal; reflexivity).
  cbn [pulseLabels pulseSeries]. rewrite !length_drop, !length_app, Hal.
  cbn [length]. lia.
Qed.

Lemma main_show_vitals_buffer v env st :
  Main.buffer (Main.show_vitals v env st)
  = Main.pushPulse (wall env) (pulse_bpm v) (Main.buffer st).
Proof. reflexivity. Qed.

Lemma main_sendChat_revealed_buffer env st :
  well_formed 60 (Main.buffer st) ->
  well_formed 60 (Main.buffer (Main.sendChat_revealed Number_toString env st)).
Proof.
  intros Hwf. unfold Main.sendChat_revealed.
  destruct (Main.revealing st) as [data|]; [|exact Hwf].
  destruct (chat_vitals data), (chat_risk data), (auto_emergency data) as [[[] [h|]]|];
    cbn; first [exact Hwf | apply push_point_well_formed, Hwf].
Qed.

Lemma main_step_buffer ev st :
  well_formed 60 (Main.buffer st) ->
  well_formed 60
    (Main.buffer (fst (Main.step Number_toString Math_pow encodeURIComponent
                         String_trim ev st))).
Proof.
  intros Hwf.
  destruct ev as [[]| |[]| | | | [] | | | |[]]; unfold Main.step;
    destruct (Main.phase st); cbn [fst];
    try exact Hwf;
    try (apply push_point_well_formed, Hwf);
    try (apply main_sendChat_revealed_buffer, Hwf).
  destruct (Main.busy st); [exact Hwf|]. unfold Main.sendChat.
  destruct (negb _); exact Hwf.
Qed.

Lemma backend_step_buffer ev st :
  well_formed 30 (Backend.buffer st) ->
  well_formed 30
    (Backend.buffer (fst (Backend.step Number_toString Math_pow encodeURIComponent
                            String_trim ev st))).
Proof.
  intros Hwf.
  destruct ev as [[]|[]|[]| | | |[]| | |[]]; unfold Backend.step; cbn [fst];
    try exact Hwf;
    try (apply push_point_well_formed, Hwf).
  - destruct (Backend.boot_fetch st); cbn [fst];
      [apply push_point_well_formed, Hwf | exact Hwf].
  - destruct (Backend.boot_fetch st); exact Hwf.
  - unfold Backend.sendChat. destruct (negb _); exact Hwf.
  - unfold Backend.sendChat_response.
    destruct (chat_vitals data); cbn; [apply push_point_well_formed, Hwf | exact Hwf].
Qed.

(** In every state either client reaches, the labels and the series of the
    chart have one length, and the series holds at most 60 points
    (src/static/app.js) or 30 (src/backend/static/app.js): whatever polls,
    chat turns, clicks and frames came, in whatever order. *)
Theorem chart_arrays_bounded_in_every_state :
  (forall page storage evs,
      well_formed 60
        (Main.buffer (fst (Main.run Number_toString Math_pow encodeURIComponent
                             String_trim evs (Main.start page storage)))))
  /\ (forall page storage evs,
      well_formed 30
        (Backend.buffer
           (fst (Backend.run Number_toString Math_pow encodeURIComponent String_trim
                   evs (fst (Backend.boot encodeURIComponent page storage)))))).
Proof.
  split.
  - intros page storage evs.
    assert (H : forall st, well_formed 60 (Main.buffer st) ->
              well_formed 60 (Main.buffer (fst (Main.run Number_toString Math_pow
                encodeURIComponent String_trim evs st)))).
    { induction evs as [|ev evs IH]; intros st Hwf; [exact Hwf|].
      cbn [Main.run]. pose proof (main_step_buffer ev st Hwf) as Hs.
      destruct (Main.step _ _ _ _ ev st) as [st1 out1]. specialize (IH st1 Hs).
      destruct (Main.run _ _ _ _ evs st1) as [st2 out2]. exact IH. }
    apply H. split; cbn; [reflexivity | lia].
  - intros page storage evs.
    assert (H : forall st, well_formed 30 (Backend.buffer st) ->
              well_formed 30 (Backend.buffer (fst (Backend.run Number_toString Math_pow
                encodeURIComponent String_trim evs st)))).
    { induction evs as [|ev evs IH]; intros st Hwf; [exact Hwf|].
      cbn [Backend.run]. pose proof (backend_step_buffer ev st Hwf) as Hs.
      destruct (Backend.step _ _ _ _ ev st) as [st1 out1]. specialize (IH st1 Hs).
      destruct (Backend.run _ _ _ _ evs st1) as [st2 out2]. exact IH. }
    apply H. split; cbn; [reflexivity | lia].
Qed.
End BufferInvariant.

(** ** What a snapshot changes at once *)
Section SnapshotFacts.
Import Api Dom Animator Common.

(** Showing a snapshot (the four [animateNumber] calls, [applyAlerts],
    [pushPulse]) records the four new values as targets at once and leaves
    the four texts to the frames; the pills depend on the snapshot alone;
    the series gains the pulse as its newest point and keeps its last 60;
    and each new animation starts from the target recorded before, not from
    the text on screen. *)
Theorem snapshot_is_recorded_at_once (v : Vitals) (env : SnapshotEnv) (st : Main.State) :
  (dataset_value (pulse (Main.fields (Main.show_vitals v env st))) = Some (pulse_bpm v)
   /\ dataset_value (temp (Main.fields (Main.show_vitals v env st)))
      = Some (temperature_c v)
   /\ dataset_value (oxygen (Main.fields (Main.show_vitals v env st)))
      = Some (oxygen_percent v)
   /\ dataset_value (air (Main.fields (Main.show_vitals v env st)))
      = Some (air_quality_ppm v))
  /\ (forall f, textContent (get_field f (Main.fields (Main.show_vitals v env st)))
                = textContent (get_field f (Main.fields st)))
  /\ Main.pills (Main.show_vitals v env st) = Main.applyAlerts v
  /\ pulseSeries (Main.buffer (Main.show_vitals v env st))
     = recent 60 (pulseSeries (Main.buffer st) ++ [pulse_bpm v])
  /\ tweens (Main.fields (Main.show_vitals v env st))
     = tweens (Main.fields st)
       ++ [(FPulse, mkTween (read_value (pulse (Main.fields st))) (pulse_bpm v)
                      (perf_pulse env) 1);
           (FTemp, mkTween (read_value (temp (Main.fields st))) (temperature_c v)
                     (perf_temp env) 1);
           (FOxygen, mkTween (read_value (oxygen (Main.fields st))) (oxygen_percent v)
                       (perf_oxygen env) 1);
           (FAir, mkTween (read_value (air (Main.fields st))) (air_quality_ppm v)
                    (perf_air env) 0)].
Proof.
  split; [repeat split|]. split; [intros []; reflexivity|].
  split; [reflexivity|]. split; [apply push_point_series|].
  cbn. rewrite <- !app_assoc. reflexivity.
Qed.
End SnapshotFacts.

(** ** Evaluating a risk payload *)
Section RiskViewFacts.
Import Api Main.
Variable Number_toString : float -> string.

Local Abbreviation setRiskUI := (Main.setRiskUI Number_toString).
Local Abbreviation restyle := (Main.restyle Number_toString).

Lemma restyle_classes level score v :
  classList (restyle level score v)
  = classList v ∖ risk_classes
    ∪ (if String.eqb level "Critical" then {[ "risk-critical"; "critical" ]}
       else if String.eqb level "Medium" then {[ "risk-medium" ]}
       else if String.eqb level "Low" then {[ "risk-low" ]}
       else ∅).
Proof.
  unfold Main.restyle.
  destruct (String.eqb level "Critical"); [reflexivity|].
  destruct (String.eqb level "Medium"); [reflexivity|].
  destruct (String.eqb level "Low"); [reflexivity|].
  cbn. rewrite (right_id_L ∅ (∪)). reflexivity.
Qed.

(** After an evaluation the element carries the class of the level it was
    given and no other risk class, whatever it carried before:
    [risk-low] exactly for "Low", [risk-medium] exactly for "Medium",
    [risk-critical] and [critical] exactly for "Critical"; a class that is
    not one of these four is neither added nor removed. *)
Theorem risk_classes_follow_the_level risk env s :
  ("risk-low" ∈ classList (view (setRiskUI risk env s)) <-> level_of risk = "Low")
  /\ ("risk-medium" ∈ classList (view (setRiskUI risk env s))
      <-> level_of risk = "Medium")
  /\ ("risk-critical" ∈ classList (view (setRiskUI risk env s))
      <-> level_of risk = "Critical")
  /\ ("critical" ∈ classList (view (setRiskUI risk env s))
      <-> level_of risk = "Critical")
  /\ (forall c, c ∉ risk_classes ->
        (c ∈ classList (view (setRiskUI risk env s)) <-> c ∈ classList (view s))).
Proof.
  rewrite setRiskUI_view, restyle_classes. unfold risk_classes.
  destruct (String.eqb_spec (level_of risk) "Critical") as [->|Hc].
  { repeat split; intros; try discriminate; set_solver. }
  destruct (String.eqb_spec (level_of risk) "Medium") as [->|Hm].
  { repeat split; intros; try discriminate; set_solver. }
  destruct (String.eqb_spec (level_of risk) "Low") as [->|Hl].
  { repeat split; intros; try discriminate; set_solver. }
  repeat split; intros; try contradiction; set_solver.
Qed.
End RiskViewFacts.

Section RiskIdempotence.
Import Api Main.
Variable Number_toString : float -> string.

Local Abbreviation setRiskUI := (Main.setRiskUI Number_toString).
Local Abbreviation restyle := (Main.restyle Number_toString).

Lemma restyle_twice level score v :
  restyle level score (restyle level score v) = restyle level score v.
Proof.
  unfold Main.restyle, risk_classes.
  destruct (String.eqb level "Critical"); [cbn [classList]; f_equal; set_solver|].
  destruct (String.eqb level "Medium"); [cbn [classList]; f_equal; set_solver|].
  destruct (String.eqb level "Low"); cbn [classList]; f_equal; set_solver.
Qed.

Lemma alerting_eq (a b : Alerting) :
  view a = view b -> lastRiskLevel a = lastRiskLevel b -> audio a = audio b -> a = b.
Proof. destruct a, b. cbn. intros -> -> ->. reflexivity. Qed.

(** Evaluating the same payload a second time changes nothing at all: the
    styling and texts are the same, the remembered level is the same, and
    no call of [playIcuAlert] is made, whatever the clock reads. *)
Theorem same_payload_twice_changes_nothing risk e1 e2 s :
  setRiskUI risk e2 (setRiskUI risk e1 s) = setRiskUI risk e1 s.
Proof.
  assert (Hno : transition (level_of risk) (lastRiskLevel (setRiskUI risk e1 s)) = false).
  { apply transition_false.
    destruct (String.eqb_spec (level_of risk) "") as [E|E]; [left; exact E|].
    right. symmetry. apply setRiskUI_remembers, E. }
  apply alerting_eq.
  - rewrite !setRiskUI_view. apply restyle_twice.
  - rewrite (setRiskUI_last Number_toString risk e2), Hno. reflexivity.
  - apply setRiskUI_no_cue. left. exact Hno.
Qed.
End RiskIdempotence.

(** ** Every tone of a run *)
Section ToneFacts.
Import Api Dom Common Main.
Variable Number_toString : float -> string.
Variable Math_pow : float -> float -> float.
Variable encodeURIComponent : string -> string.
Variable String_trim : string -> string.

Local Abbreviation step :=
  (Main.step Number_toString Math_pow encodeURIComponent String_trim).
Local Abbreviation run :=
  (Main.run Number_toString Math_pow encodeURIComponent String_trim).

Lemma tone_times_playIcuAlert kind env a :
  tone_times (playIcuAlert kind env a)
  = tone_times a
    ++ (if audible (mkCueCall kind (date_now env) (verdict kind env a))
        then [date_now env] else []).
Proof.
  unfold tone_times. rewrite playIcuAlert_calls, filter_app, fmap_app.
  f_equal. rewrite filter_cons, filter_nil.
  destruct (audible _) eqn:E.
  - rewrite decide_True by reflexivity. reflexivity.
  - rewrite decide_False by discriminate. reflexivity.
Qed.

Lemma paced_playIcuAlert kind env a : paced a -> paced (playIcuAlert kind env a).
Proof.
  intros [Hlast Hgap]. unfold paced. rewrite tone_times_playIcuAlert.
  unfold verdict, playIcuAlert.
  destruct (Z.ltb_spec (date_now env - lastBeepAt a) 1200) as [Hc|Ho];
    cbn [audible cue_outcome lastBeepAt].
  - rewrite app_nil_r. split; assumption.
  - destruct (synth_ok env); cbn [audible cue_outcome].
    + split.
      * intros t [Hin|Hin]%elem_of_app; [specialize (Hlast t Hin); lia|].
        apply list_elem_of_singleton in Hin. lia.
      * intros i m x y Hx Hy.
        apply lookup_app_Some in Hy as [Hy | [Hlen Hy]].
        { rewrite lookup_app_l in Hx by (apply lookup_lt_Some in Hy; lia). eauto. }
        apply list_lookup_singleton_Some in Hy as [Hz <-].
        apply lookup_app_Some in Hx as [Hx | [Hlen' Hx]].
        { assert (x ∈ tone_times a) as Hin by (eapply list_elem_of_lookup_2; exact Hx).
          pose proof (Hlast x Hin) as Hxl. pose proof (lookup_lt_Some _ _ _ Hx) as Hlt.
          destruct m as [|m]; [lia|].
          assert (Hprev : exists z, tone_times a !! (i + m)%nat = Some z).
          { apply lookup_lt_is_Some. lia. }
          destruct Hprev as [z Hz'].
          pose proof (Hgap i m x z Hx Hz') as Hxz.
          assert (z ∈ tone_times a) as Hinz by (eapply list_elem_of_lookup_2; exact Hz').
          pose proof (Hlast z Hinz) as Hzl. lia. }
        apply list_lookup_singleton_Some in Hx as [Hi <-]. lia.
    + rewrite app_nil_r. split; [|assumption].
      intros t Hin. specialize (Hlast t Hin). lia.
Qed.

Lemma paced_played_on a a' : paced a -> played_on a a' -> paced a'.
Proof. intros Ha H. induction H; [exact Ha | apply paced_playIcuAlert; assumption]. Qed.

(** In any run of the client, the tone that comes [m] tones after another
    one started at least [1200 * m] ms after it: [n] tones take at least
    [1200 * (n - 1)] ms of [Date.now()]. *)
Theorem tones_are_rate_limited page storage evs (i m : nat) x y :
  tone_times (audio (alerting (fst (run evs (start page storage))))) !! i = Some x ->
  tone_times (audio (alerting (fst (run evs (start page storage)))))
    !! (i + m)%nat = Some y ->
  1200 * Z.of_nat m <= y - x.
Proof.
  intros Hx Hy.
  assert (Hp : paced (audio (alerting (fst (run evs (start page storage)))))).
  { eapply paced_played_on; [|apply run_audio].
    split; [intros t Hin; inversion Hin|].
    intros i' m' x' y' H. cbn in H. rewrite lookup_nil in H. discriminate. }
  destruct Hp as [_ Hgap]. specialize (Hgap i m x y Hx Hy). lia.
Qed.
End ToneFacts.

(** A run with a Critical poll at 5000 and a Medium poll at 7000. *)
Lemma tones_are_rate_limited_witness : 1200 * Z.of_nat 1 <= 7000 - 5000.
Proof.
  apply (tones_are_rate_limited Sample.Number_toString Sample.Math_pow
           Sample.encodeURIComponent Sample.String_trim Sample.page ∅
           [Main.HospitalsLoaded (Api.Ok tt);
            Main.BootLocated None;
            Main.VitalsResponse
              (Api.Ok (Api.mkVitalsData "abc" (Api.mkVitals 125 37.1 97 40)
                         (Sample.risk_at "Critical")))
              Sample.snapshot_env (Main.mkAudioEnv 5000 true);
            Main.VitalsResponse
              (Api.Ok (Api.mkVitalsData "abc" (Api.mkVitals 112 37.1 97 40)
                         (Sample.risk_at "Medium")))
              Sample.snapshot_env (Main.mkAudioEnv 7000 true)]
           0%nat 1%nat 5000 7000); vm_compute; reflexivity.
Defined.

Section CallFacts.
Import Api Dom Common Main.
Variable Number_toString : float -> string.
Variable Math_pow : float -> float -> float.
Variable encodeURIComponent : string -> string.
Variable String_trim : string -> string.

Local Abbreviation step :=
  (Main.step Number_toString Math_pow encodeURIComponent String_trim).
Local Abbreviation run :=
  (Main.run Number_toString Math_pow encodeURIComponent String_trim).
Local Abbreviation setRiskUI := (Main.setRiskUI Number_toString).

Lemma regular_playIcuAlert kind env a :
  kind = "critical" \/ kind = "medium" ->
  Forall regular_call (calls a) ->
  Forall regular_call (calls (playIcuAlert kind env a)).
Proof.
  intros Hk Ha. rewrite playIcuAlert_calls. apply Forall_app. split; [exact Ha|].
  apply Forall_singleton. split; [exact Hk|].
  cbn [cue_kind cue_outcome]. unfold verdict, frequency_of. intros f.
  destruct (_ <? _); [discriminate|].
  destruct (synth_ok env); [|discriminate]. intros [= <-]. reflexivity.
Qed.

Lemma regular_setRiskUI risk env s :
  Forall regular_call (calls (audio s)) ->
  Forall regular_call (calls (audio (setRiskUI risk env s))).
Proof.
  intros Hs. rewrite setRiskUI_audio. destruct (transition _ _); [|exact Hs].
  unfold cue_for.
  destruct (String.eqb (level_of risk) "Critical"), (String.eqb (level_of risk) "Medium");
    repeat first [exact Hs | apply regular_playIcuAlert; [tauto|]].
Qed.

Lemma regular_sendChat_revealed env st :
  Forall regular_call (calls (audio (alerting st))) ->
  Forall regular_call
    (calls (audio (alerting (sendChat_revealed Number_toString env st)))).
Proof.
  intros Hs. unfold sendChat_revealed. destruct (revealing st) as [data|]; [|exact Hs].
  destruct (chat_vitals data), (chat_risk data), (auto_emergency data) as [[[] [h|]]|];
    cbn;
    repeat first [ exact Hs | apply regular_setRiskUI
                 | apply regular_playIcuAlert; [tauto|] ].
Qed.

Lemma regular_step ev st :
  Forall regular_call (calls (audio (alerting st))) ->
  Forall regular_call (calls (audio (alerting (fst (step ev st))))).
Proof.
  intros Hs.
  destruct ev as [[]| |[]| | | | [] | | | |[]]; unfold Main.step;
    destruct (phase st); cbn [fst];
    try exact Hs;
    try (apply regular_sendChat_revealed, Hs);
    try (cbn; apply regular_setRiskUI, Hs);
    try (cbn; apply regular_playIcuAlert; [tauto | exact Hs]).
  destruct (busy st); [exact Hs|]. unfold sendChat. destruct (negb _); exact Hs.
Qed.

(** In any run of the client every call of [playIcuAlert] has kind
    "critical" or "medium", and every tone that started is at 880 Hz for
    "critical" and at 660 Hz for "medium". *)
Theorem every_cue_is_critical_or_medium page storage evs :
  Forall regular_call
    (calls (audio (alerting (fst (run evs (start page storage)))))).
Proof.
  assert (H : forall st, Forall regular_call (calls (audio (alerting st))) ->
            Forall regular_call (calls (audio (alerting (fst (run evs st)))))).
  { induction evs as [|ev evs IH]; intros st Hs; [exact Hs|].
    cbn [Main.run]. pose proof (regular_step ev st Hs) as H1.
    destruct (step ev st) as [st1 out1]. specialize (IH st1 H1).
    destruct (run evs st1) as [st2 out2]. exact IH. }
  apply H. constructor.
Qed.
End CallFacts.

(** ** The typewriter *)
Section TypewriterFacts.
Variable unit : Type.
Local Open Scope nat_scope.

Local Abbreviation ticks := (Typewriter.ticks unit).
Local Abbreviation tick := (Typewriter.tick unit).
Local Abbreviation begin := (Typewriter.begin unit).

Lemma ticks_succ n src s : ticks (S n) src s = tick src (ticks n src s).
Proof. revert s. induction n as [|n IH]; intros s; [reflexivity|]. apply (IH (tick src s)). Qed.

Lemma ticks_once_resolved n src s :
  Typewriter.resolved unit s = true -> ticks n src s = s.
Proof.
  intros Hr. induction n as [|n IH]; [reflexivity|].
  rewrite ticks_succ, IH. unfold Typewriter.tick. rewrite Hr. reflexivity.
Qed.

Lemma ticks_while_typing n (src : list unit) :
  n < Nat.max 1 (length src) ->
  ticks n src begin
  = {| Typewriter.i := n; Typewriter.shown := take n src;
       Typewriter.resolved := false |}.
Proof.
  induction n as [|n IH]; intros Hn; [reflexivity|].
  rewrite ticks_succ, IH by lia. unfold Typewriter.tick. cbn.
  f_equal. apply Nat.leb_gt. lia.
Qed.

(** After [n] ticks the element shows the first [n] code units and the
    promise is pending, as long as [n] is below the length of the text;
    from then on the whole text is shown, the timer is cleared and the
    promise resolved. An empty text takes one tick. *)
Theorem typewriter_reveals_one_unit_per_tick (src : list unit) (n : nat) :
  (n < Nat.max 1 (length src) ->
   ticks n src begin
   = {| Typewriter.i := n; Typewriter.shown := take n src;
        Typewriter.resolved := false |})
  /\ (Nat.max 1 (length src) <= n ->
      ticks n src begin
      = {| Typewriter.i := Nat.max 1 (length src); Typewriter.shown := src;
           Typewriter.resolved := true |}).
Proof.
  split; [apply ticks_while_typing|]. intros Hn.
  assert (Hend : ticks (Nat.max 1 (length src)) src begin
                 = {| Typewriter.i := Nat.max 1 (length src);
                      Typewriter.shown := src; Typewriter.resolved := true |}).
  { destruct (Nat.max 1 (length src)) as [|k] eqn:Ek; [lia|].
    rewrite ticks_succ, ticks_while_typing by lia. unfold Typewriter.tick. cbn.
    f_equal; [apply take_ge; lia | apply Nat.leb_le; lia]. }
  replace n with ((n - Nat.max 1 (length src)) + Nat.max 1 (length src)) by lia.
  generalize (n - Nat.max 1 (length src)). intros k.
  induction k as [|k IH]; [exact Hend|].
  cbn [Nat.add]. rewrite ticks_succ, IH. reflexivity.
Qed.
End TypewriterFacts.

(** A reply of three code units: two ticks show two of them, the third
    resolves. *)
Lemma typewriter_reveals_one_unit_per_tick_witness :
  Typewriter.ticks nat 2 [72; 105; 33]%nat (Typewriter.begin nat)
  = Typewriter.mkState nat 2 [72; 105]%nat false
  /\ Typewriter.ticks nat 5 [72; 105; 33]%nat (Typewriter.begin nat)
     = Typewriter.mkState nat 3 [72; 105; 33]%nat true.
Proof.
  split.
  - apply (proj1 (typewriter_reveals_one_unit_per_tick nat [72; 105; 33]%nat 2)).
    cbn. lia.
  - apply (proj2 (typewriter_reveals_one_unit_per_tick nat [72; 105; 33]%nat 5)).
    cbn. lia.
Defined.

(** ** The theme *)
Section ThemeFacts.
Import Common.

Lemma setTheme_settled next s : theme_settled (Theme.setTheme next s).
Proof.
  unfold Theme.setTheme.
  destruct (String.eqb next "light").
  - exists "light". split; [left; reflexivity|]. split; [reflexivity|].
    apply lookup_insert_eq.
  - exists "dark". split; [right; reflexivity|]. split; [reflexivity|].
    apply lookup_insert_eq.
Qed.

Lemma clicks_settled n s : theme_settled s -> theme_settled (Theme.clicks n s).
Proof.
  revert s. induction n as [|n IH]; intros s Hs; [exact Hs|].
  cbn [Theme.clicks]. apply IH, setTheme_settled.
Qed.

(** Once [boot] has set the theme, and after any number of clicks on the
    theme button, the page shows "light" or "dark" and [localStorage] holds
    the theme shown; a stored value other than "light" (none at all, or
    anything else) gives "dark". *)
Theorem theme_is_light_or_dark_and_stored :
  (forall s n, theme_settled (Theme.clicks n (Theme.boot s)))
  /\ (forall s, Theme.storage s !! Theme.themeKey <> Some "light" ->
        Theme.dataset_theme (Theme.boot s) = Some "dark"
        /\ Theme.storage (Theme.boot s) !! Theme.themeKey = Some "dark").
Proof.
  split.
  - intros s n. apply clicks_settled, setTheme_settled.
  - intros s Hne. unfold Theme.boot, Theme.setTheme.
    destruct (String.eqb_spec
                (JS.or_else (default "" (Theme.storage s !! Theme.themeKey)) "dark")
                "light") as [E|E].
    + exfalso. apply Hne. unfold JS.or_else, JS.truthy in E.
      destruct (Theme.storage s !! Theme.themeKey) as [t|]; cbn in E.
      * destruct (String.eqb t ""); cbn in E; [discriminate | congruence].
      * discriminate.
    + split; [reflexivity | apply lookup_insert_eq].
Qed.

(** Two round trips of a settled theme: loading the page again with the
    same [localStorage] gives the same theme and leaves the storage as it
    is, whatever the markup says; and two clicks on the theme button give
    back the state before them. *)
Theorem theme_round_trips (s : Theme.State) (markup : option string) :
  theme_settled s ->
  Theme.boot {| Theme.dataset_theme := markup; Theme.storage := Theme.storage s |} = s
  /\ Theme.toggleTheme (Theme.toggleTheme s) = s.
Proof.
  intros (t & Ht & Hd & Hs). destruct s as [d m]. cbn in Hd, Hs. subst d.
  split.
  - unfold Theme.boot, Theme.setTheme. cbn [Theme.storage]. rewrite Hs.
    destruct Ht as [-> | ->]; cbn; f_equal; apply insert_id; exact Hs.
  - unfold Theme.toggleTheme, Theme.setTheme, Theme.is_light.
    destruct Ht as [-> | ->]; cbn; f_equal;
      rewrite insert_insert_eq; apply insert_id; exact Hs.
Qed.

(** The theme and the session identifier live under different keys of
    [localStorage]: setting the theme leaves the stored identifier alone,
    adopting an identifier leaves the stored theme alone, and the two
    writes give one result in either order. *)
Theorem theme_and_session_keys_are_apart :
  (forall next s,
      Theme.storage (Theme.setTheme next s) !! sessionKey
      = Theme.storage s !! sessionKey)
  /\ (forall id sess,
      localStorage (adopt id sess) !! Theme.themeKey
      = localStorage sess !! Theme.themeKey)
  /\ (forall id next (m : gmap string string),
      Theme.storage (Theme.setTheme next
                       (Theme.mkState None (localStorage (adopt id (mkSession "" m)))))
      = localStorage (adopt id (mkSession ""
                        (Theme.storage (Theme.setTheme next (Theme.mkState None m)))))).
Proof.
  repeat apply conj.
  - intros next s. apply lookup_insert_ne. discriminate.
  - intros id sess. apply lookup_insert_ne. discriminate.
  - intros id next m. cbn. apply insert_insert_ne. discriminate.
Qed.
End ThemeFacts.

(** A stored "light", a reload and two clicks. *)
Lemma theme_round_trips_witness :
  Theme.boot (Theme.mkState (Some "dark") {[ Theme.themeKey := "light" ]})
  = Theme.mkState (Some "light") {[ Theme.themeKey := "light" ]}.
Proof.
  assert (Hs : theme_settled
                 (Theme.mkState (Some "light") {[ Theme.themeKey := "light" ]})).
  { exists "light". split; [left; reflexivity|].
    split; [reflexivity | apply lookup_singleton_eq]. }
  exact (proj1 (theme_round_trips _ (Some "dark") Hs)).
Defined.

(** ** Chat turns among other events *)
Section ChatFacts.
Import Api Dom Common Main.
Variable Number_toString : float -> string.
Variable Math_pow : float -> float -> float.
Variable encodeURIComponent : string -> string.
Variable String_trim : string -> string.

Local Abbreviation step :=
  (Main.step Number_toString Math_pow encodeURIComponent String_trim).
Local Abbreviation run :=
  (Main.run Number_toString Math_pow encodeURIComponent String_trim).

Lemma run_state_app evs1 evs2 st :
  fst (run (evs1 ++ evs2) st) = fst (run evs2 (fst (run evs1 st))).
Proof.
  revert st. induction evs1 as [|ev evs1 IH]; intros st; [reflexivity|].
  cbn [app Main.run]. destruct (step ev st) as [st1 out1].
  specialize (IH st1). destruct (run (evs1 ++ evs2) st1) as [st2 out2].
  destruct (run evs1 st1) as [st3 out3]. exact IH.
Qed.

Lemma run_one ev st : fst (run [ev] st) = fst (step ev st).
Proof. cbn. destruct (step ev st). reflexivity. Qed.

Lemma beside_chat_step ev st :
  beside_chat ev = true -> phase st = Running -> chat_frame st (fst (step ev st)).
Proof.
  intros Hq Hrun.
  destruct ev as [[]| |[]| | | | [] | | | |[]]; try discriminate Hq;
    unfold Main.step; rewrite ?Hrun; cbn [fst]; repeat split; try reflexivity;
    exact Hrun.
Qed.

Lemma beside_chat_run evs st :
  Forall (fun ev => beside_chat ev = true) evs -> phase st = Running ->
  chat_frame st (fst (run evs st)).
Proof.
  intros Hq. revert st. induction Hq as [|ev evs Hev _ IH]; intros st Hrun.
  - repeat split.
  - cbn [Main.run]. pose proof (beside_chat_step ev st Hev Hrun) as (Hp & Ht & Hb & Hr).
    destruct (step ev st) as [st1 out1]. cbn [fst] in *.
    assert (phase st1 = Running) as Hrun1 by congruence.
    specialize (IH st1 Hrun1). destruct (run evs st1) as [st2 out2]. cbn [fst] in *.
    destruct IH as (Hp' & Ht' & Hb' & Hr'). repeat split; congruence.
Qed.

Lemma remove_typing_app l1 l2 :
  remove_typing (l1 ++ l2) = remove_typing l1 ++ remove_typing l2.
Proof. apply filter_app. Qed.

Lemma remove_typing_user_then_indicator text :
  remove_typing [Message "msg user" text; TypingIndicator] = [Message "msg user" text].
Proof. reflexivity. Qed.

Lemma sendChat_revealed_chat env st data :
  revealing st = Some data ->
  transcript (sendChat_revealed Number_toString env st)
  = typed_out (reply data) (transcript st)
  /\ busy (sendChat_revealed Number_toString env st) = false
  /\ revealing (sendChat_revealed Number_toString env st) = None.
Proof.
  intros Hr. unfold sendChat_revealed. rewrite Hr.
  destruct (chat_vitals data), (chat_risk data), (auto_emergency data) as [[[] [h|]]|];
    repeat split; reflexivity.
Qed.

Lemma typed_out_last text l className old :
  typed_out text (l ++ [Message className old]) = l ++ [Message "msg bot" text].
Proof.
  unfold typed_out. rewrite length_app. cbn [length].
  replace (length l + 1 - 1)%nat with (length l) by lia.
  rewrite take_app_length. reflexivity.
Qed.

(** A successful chat turn, with any polls, frames and SOS events in
    between: the transcript gains the trimmed message of the user and then
    the whole reply, in this order and nothing else; the typing indicator is
    gone; the send controls are enabled again. *)
Theorem chat_turn_adds_message_and_reply
    (st : State) (input : string) (data : ChatData) (env : ChatEnv)
    (during_request during_reveal : list Event) :
  phase st = Running -> busy st = false -> String_trim input <> "" ->
  Forall (fun ev => beside_chat ev = true) during_request ->
  Forall (fun ev => beside_chat ev = true) during_reveal ->
  transcript (fst (run ([ChatSubmit input] ++ during_request
                        ++ [ChatResponse (Ok data)] ++ during_reveal
                        ++ [ChatRevealed env]) st))
  = remove_typing (transcript st)
    ++ [Message "msg user" (String_trim input); Message "msg bot" (reply data)]
  /\ busy (fst (run ([ChatSubmit input] ++ during_request
                     ++ [ChatResponse (Ok data)] ++ during_reveal
                     ++ [ChatRevealed env]) st)) = false
  /\ revealing (fst (run ([ChatSubmit input] ++ during_request
                          ++ [ChatResponse (Ok data)] ++ during_reveal
                          ++ [ChatRevealed env]) st)) = None.
Proof.
  intros Hrun Hidle Htext Hq1 Hq2. apply String.eqb_neq in Htext.
  rewrite !run_state_app, !run_one.
  set (s1 := fst (step (ChatSubmit input) st)).
  assert (H1 : phase s1 = Running /\ busy s1 = true /\ revealing s1 = revealing st
               /\ transcript s1 = transcript st
                    ++ [Message "msg user" (String_trim input); TypingIndicator]).
  { subst s1. unfold Main.step. rewrite Hrun, Hidle. unfold sendChat, JS.truthy.
    rewrite Htext. cbn. unfold addMessage. cbn. rewrite <- app_assoc.
    repeat split; assumption. }
  destruct H1 as (P1 & B1 & R1 & T1).
  set (s2 := fst (run during_request s1)).
  destruct (beside_chat_run during_request s1 Hq1 P1) as (P2 & T2 & B2 & R2).
  fold s2 in P2, T2, B2, R2.
  set (s3 := fst (step (ChatResponse (Ok data)) s2)).
  assert (H3 : phase s3 = Running /\ revealing s3 = Some data
               /\ transcript s3 = remove_typing (transcript st)
                    ++ [Message "msg user" (String_trim input); Message "msg bot" ""]).
  { assert (phase s2 = Running) as P2' by congruence.
    subst s3. unfold Main.step. rewrite P2'. cbn.
    rewrite T2, T1, remove_typing_app, remove_typing_user_then_indicator.
    unfold addMessage. cbn. rewrite <- app_assoc.
    repeat split; first [reflexivity | exact P2']. }
  destruct H3 as (P3 & R3 & T3).
  set (s4 := fst (run during_reveal s3)).
  destruct (beside_chat_run during_reveal s3 Hq2 P3) as (P4 & T4 & B4 & R4).
  fold s4 in P4, T4, B4, R4.
  assert (phase s4 = Running) as P4' by congruence.
  unfold Main.step. rewrite P4'. cbn [fst].
  destruct (sendChat_revealed_chat env s4 data) as (T5 & B5 & R5); [congruence|].
  rewrite T5, B5, R5.
  assert (Hty : typed_out (reply data) (transcript s4)
                = remove_typing (transcript st)
                  ++ [Message "msg user" (String_trim input);
                      Message "msg bot" (reply data)]).
  { rewrite T4, T3.
    replace (remove_typing (transcript st)
             ++ [Message "msg user" (String_trim input); Message "msg bot" ""])
      with ((remove_typing (transcript st) ++ [Message "msg user" (String_trim input)])
            ++ [Message "msg bot" ""])
      by (rewrite <- app_assoc; reflexivity).
    rewrite typed_out_last, <- app_assoc. reflexivity. }
  rewrite Hty. repeat split; reflexivity.
Qed.

(** A failed chat turn: the transcript gains the message of the user only,
    the typing indicator is gone, the toast shows the error and the send
    controls are enabled again. *)
Theorem chat_turn_failure_is_shown
    (st : State) (input m : string) (during_request : list Event) :
  phase st = Running -> busy st = false -> String_trim input <> "" ->
  Forall (fun ev => beside_chat ev = true) during_request ->
  transcript (fst (run ([ChatSubmit input] ++ during_request
                        ++ [ChatResponse (Err m)]) st))
  = remove_typing (transcript st) ++ [Message "msg user" (String_trim input)]
  /\ shows (toast (fst (run ([ChatSubmit input] ++ during_request
                             ++ [ChatResponse (Err m)]) st)))
           ("Assistant error: " +:+ m)
  /\ busy (fst (run ([ChatSubmit input] ++ during_request
                     ++ [ChatResponse (Err m)]) st)) = false.
Proof.
  intros Hrun Hidle Htext Hq1. apply String.eqb_neq in Htext.
  rewrite !run_state_app, !run_one.
  set (s1 := fst (step (ChatSubmit input) st)).
  assert (H1 : phase s1 = Running
               /\ transcript s1 = transcript st
                    ++ [Message "msg user" (String_trim input); TypingIndicator]).
  { subst s1. unfold Main.step. rewrite Hrun, Hidle. unfold sendChat, JS.truthy.
    rewrite Htext. cbn. unfold addMessage. cbn. rewrite <- app_assoc.
    split; [assumption | reflexivity]. }
  destruct H1 as (P1 & T1).
  set (s2 := fst (run during_request s1)).
  destruct (beside_chat_run during_request s1 Hq1 P1) as (P2 & T2 & B2 & R2).
  fold s2 in P2, T2, B2, R2.
  assert (phase s2 = Running) as P2' by congruence.
  unfold Main.step. rewrite P2'. cbn.
  rewrite T2, T1, remove_typing_app, remove_typing_user_then_indicator.
  repeat split; reflexivity.
Qed.

(** An input that is empty after trimming does nothing: no message, no
    request, no change of any kind, in any state. *)
Theorem empty_chat_input_does_nothing (st : State) (input : string) :
  String_trim input = "" -> step (ChatSubmit input) st = (st, []).
Proof.
  intros Hempty. unfold Main.step.
  destruct (phase st); try reflexivity.
  destruct (busy st); [reflexivity|]. unfold sendChat. rewrite Hempty. reflexivity.
Qed.
End ChatFacts.

(** A turn on the fresh page, with a tick of the interval while the request
    is out and a frame while the reply is typed. *)
Lemma chat_turn_adds_message_and_reply_witness :
  Main.transcript
    (fst (Main.run Sample.Number_toString Sample.Math_pow Sample.encodeURIComponent
            Sample.String_trim
            ([Main.ChatSubmit "I have a fever"] ++ [Main.Tick]
             ++ [Main.ChatResponse
                   (Api.Ok (Api.mkChatData "abc" "Rest and drink water." None None None))]
             ++ [Main.AnimationFrame 1200]
             ++ [Main.ChatRevealed
                   (Main.mkChatEnv Sample.snapshot_env (Main.mkAudioEnv 9000 true)
                      (Main.mkAudioEnv 9001 true))])
            (Main.set_phase Main.Running Sample.page)))
  = [Common.Message "msg user" "I have a fever";
     Common.Message "msg bot" "Rest and drink water."].
Proof.
  exact (proj1 (chat_turn_adds_message_and_reply Sample.Number_toString Sample.Math_pow
                  Sample.encodeURIComponent Sample.String_trim
                  (Main.set_phase Main.Running Sample.page) "I have a fever"
                  (Api.mkChatData "abc" "Rest and drink water." None None None)
                  (Main.mkChatEnv Sample.snapshot_env (Main.mkAudioEnv 9000 true)
                     (Main.mkAudioEnv 9001 true))
                  [Main.Tick] [Main.AnimationFrame 1200]
                  eq_refl eq_refl ltac:(discriminate)
                  ltac:(repeat constructor) ltac:(repeat constructor))).
Defined.

Lemma chat_turn_failure_is_shown_witness :
  Main.toast
    (fst (Main.run Sample.Number_toString Sample.Math_pow Sample.encodeURIComponent
            Sample.String_trim
            ([Main.ChatSubmit "I have a fever"] ++ [Main.Tick]
             ++ [Main.ChatResponse (Api.Err "HTTP 503")])
            (Main.set_phase Main.Running Sample.page)))
  = Dom.mkToast "Assistant error: HTTP 503" false.
Proof.
  destruct (chat_turn_failure_is_shown Sample.Number_toString Sample.Math_pow
              Sample.encodeURIComponent Sample.String_trim
              (Main.set_phase Main.Running Sample.page) "I have a fever" "HTTP 503"
              [Main.Tick] eq_refl eq_refl ltac:(discriminate) ltac:(repeat constructor))
    as (_ & [Htext Hshown] & _).
  destruct (Main.toast _) as [text hidden]. cbn in Htext, Hshown.
  rewrite Htext, Hshown. reflexivity.
Defined.

Lemma empty_chat_input_does_nothing_witness :
  Main.step Sample.Number_toString Sample.Math_pow Sample.encodeURIComponent
    Sample.String_trim (Main.ChatSubmit "")
    (Main.set_phase Main.Running Sample.page)
  = (Main.set_phase Main.Running Sample.page, []).
Proof.
  apply (empty_chat_input_does_nothing Sample.Number_toString Sample.Math_pow
           Sample.encodeURIComponent Sample.String_trim).
  reflexivity.
Defined.

(** ** The location, and the order of boot *)
Section BootOrderFacts.
Import Api Dom Common Main.
Variable Number_toString : float -> string.
Variable Math_pow : float -> float -> float.
Variable encodeURIComponent : string -> string.
Variable String_trim : string -> string.

Local Abbreviation step :=
  (Main.step Number_toString Math_pow encodeURIComponent String_trim).
Local Abbreviation run :=
  (Main.run Number_toString Math_pow encodeURIComponent String_trim).

Lemma sendChat_revealed_location env st :
  lastKnownLocation (sendChat_revealed Number_toString env st) = lastKnownLocation st
  /\ center (sendChat_revealed Number_toString env st) = center st.
Proof.
  unfold sendChat_revealed. destruct (revealing st) as [data|]; [|split; reflexivity].
  destruct (chat_vitals data), (chat_risk data), (auto_emergency data) as [[[] [h|]]|];
    split; reflexivity.
Qed.

(** Only the two [getGeo] results move the remembered location. *)
Lemma step_location ev st :
  (forall pos, ev <> BootLocated pos) -> (forall pos, ev <> SosLocated pos) ->
  lastKnownLocation (fst (step ev st)) = lastKnownLocation st.
Proof.
  intros Hb Hs.
  destruct ev as [[]|pos|[]| | | | [] | | |pos|[]];
    try (exfalso; apply (Hb pos); reflexivity);
    try (exfalso; apply (Hs pos); reflexivity);
    unfold Main.step; destruct (phase st); cbn [fst]; try reflexivity.
  - destruct (busy st); [reflexivity|]. unfold sendChat. destruct (negb _); reflexivity.
  - apply sendChat_revealed_location.
Qed.

(** The position resolved for an SOS, or the page centre when there is
    none, is what the next chat request carries, whether the SOS request
    then succeeds or fails. *)
Theorem sos_location_goes_with_the_next_chat
    (st : State) (pos : option Location) (r : Result SosData) (aenv : AudioEnv)
    (input : string) :
  phase st = Running -> busy st = false -> String_trim input <> "" ->
  exists body,
    snd (step (ChatSubmit input)
           (fst (run [SosLocated pos; SosResponse r aenv] st)))
    = [POST_ask_ai body]
    /\ ask_lat body = lat (default (center st) pos)
    /\ ask_lng body = lng (default (center st) pos)
    /\ message body = String_trim input.
Proof.
  intros Hrun Hidle Htext. apply String.eqb_neq in Htext.
  cbn [Main.run]. unfold Main.step at 2. rewrite Hrun. cbn [sos_located].
  set (s1 := set_lastKnownLocation (getGeo pos st) st).
  assert (H1 : phase s1 = Running /\ busy s1 = false
               /\ lastKnownLocation s1 = default (center st) pos)
    by (repeat split; assumption).
  destruct H1 as (P1 & B1 & L1).
  unfold Main.step at 2. rewrite P1.
  set (s2 := sos_response Number_toString r aenv s1). cbn [fst].
  assert (H2 : phase s2 = Running /\ busy s2 = false
               /\ lastKnownLocation s2 = default (center st) pos)
    by (subst s2; destruct r; repeat split; assumption).
  destruct H2 as (P2 & B2 & L2).
  unfold Main.step. rewrite P2, B2. unfold sendChat, JS.truthy. rewrite Htext.
  cbn [negb snd]. eexists. split; [reflexivity|]. cbn. rewrite L2.
  repeat split; reflexivity.
Qed.

Lemma quiet_until_running ev st :
  phase st <> Running ->
  (forall body, (POST_ask_ai body) ∉ (snd (step ev st)))
  /\ (forall body, (POST_sos body) ∉ (snd (step ev st))).
Proof.
  intros Hnr.
  destruct ev as [[]| |[]| | | | | | | |]; unfold Main.step;
    destruct (phase st); try contradiction; cbn [snd];
    split; intros body Hin; try (inversion Hin; fail);
    apply list_elem_of_singleton in Hin; discriminate.
Qed.

(** Until the vitals fetch awaited by [boot] has succeeded, the client
    sends nothing to /api/ask_ai and nothing to /api/sos, whatever is typed
    or clicked: a chat or SOS request in a run means the client reached its
    running phase. *)
Theorem no_chat_or_sos_before_boot_is_over page storage evs r :
  r ∈ snd (run evs (start page storage)) ->
  (exists body, r = POST_ask_ai body) \/ (exists body, r = POST_sos body) ->
  phase (fst (run evs (start page storage))) = Running.
Proof.
  assert (H : forall st, phase st <> Running ->
            r ∈ snd (run evs st) ->
            (exists body, r = POST_ask_ai body) \/ (exists body, r = POST_sos body) ->
            phase (fst (run evs st)) = Running).
  { induction evs as [|ev evs IH]; intros st Hnr Hin Hpost; [inversion Hin|].
    cbn [Main.run] in *. pose proof (quiet_until_running ev st Hnr) as Hq.
    pose proof (running_is_stable Number_toString Math_pow encodeURIComponent
                  String_trim) as Hstable.
    destruct (step ev st) as [st1 out1]. cbn [snd] in Hq.
    assert (Hdec : phase st1 = Running \/ phase st1 <> Running)
      by (destruct (phase st1); first [left; reflexivity | right; discriminate]).
    destruct Hdec as [Hr1|Hr1].
    - clear IH Hin. revert st1 Hr1. clear Hq.
      induction evs as [|ev' evs IH']; intros st1 Hr1; [exact Hr1|].
      cbn [Main.run]. specialize (Hstable ev' st1 Hr1).
      destruct (step ev' st1) as [st2 out2]. cbn [fst] in Hstable.
      specialize (IH' st2 Hstable). destruct (run evs st2). exact IH'.
    - specialize (IH st1 Hr1). destruct (run evs st1) as [st2 out2].
      cbn [fst snd] in *. apply elem_of_app in Hin as [Hin|Hin].
      + exfalso. destruct Hpost as [[body ->]|[body ->]];
          [apply (proj1 Hq body) | apply (proj2 Hq body)]; exact Hin.
      + apply IH; assumption. }
  apply H. cbn. discriminate.
Qed.

(** When the hospital list cannot be loaded, [boot] is rejected at its
    first [await]: the toast shows the error and the client never asks for
    vitals, nor sends anything else, whatever happens afterwards. *)
Theorem failed_hospital_list_stops_boot page storage m evs :
  shows (toast (fst (step (HospitalsLoaded (Err m)) (start page storage))))
        ("Boot error: " +:+ m)
  /\ snd (run (HospitalsLoaded (Err m) :: evs) (start page storage)) = [].
Proof.
  split; [apply setToast_shows; discriminate|].
  cbn [Main.run]. unfold Main.step at 1. cbn [phase start].
  pose proof (halted_is_final Number_toString Math_pow encodeURIComponent String_trim
                evs (boot_failed m (start page storage)) eq_refl) as [_ Hout].
  destruct (run evs _) as [st2 out2]. cbn [snd] in *. exact Hout.
Qed.
End BootOrderFacts.

(** An SOS without a position and a failing backend, then a chat message:
    the request carries the page centre. *)
Lemma sos_location_goes_with_the_next_chat_witness :
  exists body,
    snd (Main.step Sample.Number_toString Sample.Math_pow Sample.encodeURIComponent
           Sample.String_trim (Main.ChatSubmit "help")
           (fst (Main.run Sample.Number_toString Sample.Math_pow
                   Sample.encodeURIComponent Sample.String_trim
                   [Main.SosLocated None;
                    Main.SosResponse (Api.Err "HTTP 500") (Main.mkAudioEnv 9000 true)]
                   (Main.set_phase Main.Running Sample.page))))
    = [Main.POST_ask_ai body]
    /\ Api.ask_lat body = 29.0661%float
    /\ Api.ask_lng body = 31.0994%float
    /\ Api.message body = "help".
Proof.
  exact (sos_location_goes_with_the_next_chat Sample.Number_toString Sample.Math_pow
           Sample.encodeURIComponent Sample.String_trim
           (Main.set_phase Main.Running Sample.page) None (Api.Err "HTTP 500")
           (Main.mkAudioEnv 9000 true) "help" eq_refl eq_refl ltac:(discriminate)).
Defined.

(** A run that contains a chat request went through the whole of boot. *)
Lemma no_chat_or_sos_before_boot_is_over_witness :
  Main.phase
    (fst (Main.run Sample.Number_toString Sample.Math_pow Sample.encodeURIComponent
            Sample.String_trim
            [Main.HospitalsLoaded (Api.Ok tt);
             Main.BootLocated None;
             Main.VitalsResponse
               (Api.Ok (Api.mkVitalsData "abc" (Api.mkVitals 72 36.6 98 40)
                          (Sample.risk_at "Low")))
               Sample.snapshot_env (Main.mkAudioEnv 5000 true);
             Main.ChatSubmit "help"]
            (Main.start Sample.page ∅)))
  = Main.Running.
Proof.
  apply (no_chat_or_sos_before_boot_is_over Sample.Number_toString Sample.Math_pow
           Sample.encodeURIComponent Sample.String_trim Sample.page ∅ _
           (Main.POST_ask_ai (Api.mkAskAiBody "help" "abc" 29.0661 31.0994))).
  - vm_compute. right. left.
  - left. eexists. reflexivity.
Defined.

(** ** The session identifier in src/backend/static/app.js *)
Section BackendSessionFacts.
Import Api Dom Common.
Variable Number_toString : float -> string.
Variable Math_pow : float -> float -> float.
Variable encodeURIComponent : string -> string.
Variable String_trim : string -> string.

Local Abbreviation step :=
  (Backend.step Number_toString Math_pow encodeURIComponent String_trim).
Local Abbreviation attaches := (backend_attaches encodeURIComponent).

(** In src/backend/static/app.js the identifier read from [localStorage]
    goes with the vitals request of [boot], and the current identifier with
    every later vitals and chat request (an empty one is left out of the
    vitals URL); it is adopted from every successful vitals response, the
    one of [boot] and those of the interval, and from every successful chat
    response, and from nothing else.  /api/sos is outside of this: its
    request body holds the two coordinates only, and its response never
    changes the identifier or what [localStorage] holds. *)
Theorem backend_sos_is_outside_the_session :
  (forall ev st r,
      sessionId (Backend.session st) <> "" ->
      r ∈ snd (step ev st) -> attaches (sessionId (Backend.session st)) r)
  /\ (forall ev st,
      Backend.session (fst (step ev st)) = Backend.session st
      \/ exists id, backend_issued ev = Some id
                    /\ Backend.session (fst (step ev st))
                       = adopt id (Backend.session st))
  /\ (forall data env st,
      Backend.session (fst (step (Backend.PollResponse (Ok data) env) st))
      = adopt (vitals_session_id data) (Backend.session st))
  /\ (forall data env st,
      Backend.session (fst (step (Backend.ChatResponse (Ok data) env) st))
      = adopt (chat_session_id data) (Backend.session st))
  /\ (forall r st,
      Backend.session (fst (step (Backend.SosResponse r) st)) = Backend.session st)
  /\ (forall pos st,
      snd (step (Backend.SosLocated pos) st)
      = [Backend.POST_sos
           {| Backend.body_lat := lat (default (Backend.center st) pos);
              Backend.body_lng := lng (default (Backend.center st) pos) |}])
  /\ (forall page storage,
      Backend.session (fst (Backend.boot encodeURIComponent page storage))
      = load_session storage
      /\ Backend.boot_fetch (fst (Backend.boot encodeURIComponent page storage)) = true
      /\ snd (Backend.boot encodeURIComponent page storage)
         = [Backend.GET "/api/hospitals";
            Backend.GET
              (if String.eqb (sessionId (load_session storage)) ""
               then "/api/vitals"
               else "/api/vitals?session_id="
                    +:+ encodeURIComponent (sessionId (load_session storage)))])
  /\ (forall ev st,
      Backend.boot_fetch st = true ->
      (forall r env, ev <> Backend.BootVitalsResponse r env) ->
      Backend.boot_fetch (fst (step ev st)) = true)
  /\ (forall data env st,
      Backend.boot_fetch st = true ->
      Backend.session (fst (step (Backend.BootVitalsResponse (Ok data) env) st))
      = adopt (vitals_session_id data) (Backend.session st))
  /\ (forall st,
      snd (step Backend.Tick st)
      = [Backend.GET
           (if String.eqb (sessionId (Backend.session st)) ""
            then "/api/vitals"
            else "/api/vitals?session_id="
                 +:+ encodeURIComponent (sessionId (Backend.session st)))])
  /\ (forall input st,
      String_trim input <> "" ->
      snd (step (Backend.ChatSubmit input) st)
      = [Backend.POST_ask_ai
           {| Backend.ask_message := String_trim input;
              Backend.ask_id := sessionId (Backend.session st) |}]).
Proof.
  split; [|split; [|split; [|split; [|split; [|split; [|split; [|split;
    [|split; [|split]]]]]]]]].
  - intros ev st r Hid. apply String.eqb_neq in Hid.
    destruct ev as [[]|[]|[]| | | |[]| | |[]]; unfold Backend.step; intros Hin;
      try (cbn [snd] in Hin; inversion Hin; fail);
      try (destruct (Backend.boot_fetch st); cbn [snd] in Hin; inversion Hin; fail);
      cbn [snd] in Hin.
    + apply list_elem_of_singleton in Hin. subst r. cbn.
      unfold JS.truthy. rewrite Hid. reflexivity.
    + unfold Backend.sendChat in Hin. destruct (negb _); [inversion Hin|].
      apply list_elem_of_singleton in Hin. subst r. reflexivity.
    + unfold Backend.sos_located in Hin.
      apply list_elem_of_singleton in Hin. subst r. exact I.
  - intros ev st.
    destruct ev as [[]|[]|[]| | | |[data|]| | |[]]; unfold Backend.step;
      cbn [fst backend_issued];
      try (left; reflexivity);
      try (right; eexists; split; reflexivity).
    + destruct (Backend.boot_fetch st); [|left; reflexivity].
      right. eexists. split; reflexivity.
    + destruct (Backend.boot_fetch st); left; reflexivity.
    + left. unfold Backend.sendChat. destruct (negb _); reflexivity.
    + right. eexists. split; [reflexivity|]. unfold Backend.sendChat_response.
      destruct (chat_vitals data); reflexivity.
  - reflexivity.
  - intros data env st. unfold Backend.step, Backend.sendChat_response. cbn [fst].
    destruct (chat_vitals data); reflexivity.
  - intros [] st; reflexivity.
  - reflexivity.
  - intros page storage. split; [reflexivity|]. split; [reflexivity|].
    unfold Backend.boot, Backend.refreshVitals_request, JS.truthy.
    cbn [snd Backend.session].
    destruct (String.eqb (sessionId (load_session storage)) ""); reflexivity.
  - intros ev st Hb Hne.
    destruct ev as [[]|r env|[data|]| | | |[data|]| | |[]]; unfold Backend.step;
      cbn [fst]; try exact Hb.
    + exfalso. exact (Hne r env eq_refl).
    + unfold Backend.sendChat. destruct (negb _); exact Hb.
    + unfold Backend.sendChat_response. destruct (chat_vitals data); exact Hb.
  - intros data env st Hb. unfold Backend.step. rewrite Hb. reflexivity.
  - intros st. unfold Backend.step, Backend.refreshVitals_request, JS.truthy.
    cbn [snd]. destruct (String.eqb _ ""); reflexivity.
  - intros input st Hne. apply String.eqb_neq in Hne.
    unfold Backend.step, Backend.sendChat, JS.truthy. rewrite Hne. reflexivity.
Qed.
End BackendSessionFacts.

(** A client of the other build that holds "abc" polls with it. *)
Lemma backend_sos_is_outside_the_session_witness :
  backend_attaches Sample.encodeURIComponent "abc"
    (Backend.GET "/api/vitals?session_id=abc").
Proof.
  apply (proj1 (backend_sos_is_outside_the_session Sample.Number_toString
                  Sample.Math_pow Sample.encodeURIComponent Sample.String_trim)
           Backend.Tick
           (Backend.set_session (Common.mkSession "abc" ∅) Sample.backend_page)).
  - cbn. discriminate.
  - cbn. left.
Defined.

(** ** The toast *)
Section ToastFacts.
Import Api Dom Common.
Variable Number_toString : float -> string.
Variable Math_pow : float -> float -> float.
Variable encodeURIComponent : string -> string.
Variable String_trim : string -> string.

Lemma setToast_consistent text : toast_consistent (setToast text).
Proof.
  unfold toast_consistent, setToast, JS.truthy.
  destruct (String.eqb_spec text "") as [->|Hne]; cbn; [tauto|].
  split; [discriminate | contradiction].
Qed.

Lemma main_step_toast ev st :
  toast_consistent (Main.toast st) ->
  toast_consistent
    (Main.toast (fst (Main.step Number_toString Math_pow encodeURIComponent
                        String_trim ev st))).
Proof.
  intros Hc.
  destruct ev as [[]| |[]| | | | [] | | | |[]]; unfold Main.step;
    destruct (Main.phase st); cbn [fst];
    try exact Hc; try apply setToast_consistent.
  - destruct (Main.busy st); [exact Hc|]. unfold Main.sendChat.
    destruct (negb _); [exact Hc | apply setToast_consistent].
  - unfold Main.sendChat_revealed. destruct (Main.revealing st) as [data|]; [|exact Hc].
    destruct (chat_vitals data), (chat_risk data), (auto_emergency data) as [[[] [h|]]|];
      exact Hc.
Qed.

Lemma backend_step_toast ev st :
  toast_consistent (Backend.toast st) ->
  toast_consistent
    (Backend.toast (fst (Backend.step Number_toString Math_pow encodeURIComponent
                           String_trim ev st))).
Proof.
  intros Hc.
  destruct ev as [[]|[]|[]| | | |[data|]| | |[]]; unfold Backend.step; cbn [fst];
    try exact Hc; try apply setToast_consistent.
  - destruct (Backend.boot_fetch st); exact Hc.
  - destruct (Backend.boot_fetch st); [apply setToast_consistent | exact Hc].
  - unfold Backend.sendChat. destruct (negb _); [exact Hc | apply setToast_consistent].
  - unfold Backend.sendChat_response. destruct (chat_vitals data); exact Hc.
Qed.

(** When the page is served with a toast that is hidden exactly when it is
    empty, this stays so in every state of either client: the script never
    leaves a visible empty toast, nor a hidden one with text in it. *)
Theorem toast_is_hidden_exactly_when_empty :
  (forall page storage evs,
      toast_consistent (Main.toast page) ->
      toast_consistent
        (Main.toast (fst (Main.run Number_toString Math_pow encodeURIComponent
                            String_trim evs (Main.start page storage)))))
  /\ (forall page storage evs,
      toast_consistent (Backend.toast page) ->
      toast_consistent
        (Backend.toast
           (fst (Backend.run Number_toString Math_pow encodeURIComponent String_trim
                   evs (fst (Backend.boot encodeURIComponent page storage)))))).
Proof.
  split.
  - intros page storage evs Hc.
    assert (H : forall st, toast_consistent (Main.toast st) ->
              toast_consistent (Main.toast (fst (Main.run Number_toString Math_pow
                encodeURIComponent String_trim evs st)))).
    { induction evs as [|ev evs IH]; intros st Hs; [exact Hs|].
      cbn [Main.run]. pose proof (main_step_toast ev st Hs) as H1.
      destruct (Main.step _ _ _ _ ev st) as [st1 out1]. specialize (IH st1 H1).
      destruct (Main.run _ _ _ _ evs st1) as [st2 out2]. exact IH. }
    apply H. exact Hc.
  - intros page storage evs Hc.
    assert (H : forall st, toast_consistent (Backend.toast st) ->
              toast_consistent (Backend.toast (fst (Backend.run Number_toString Math_pow
                encodeURIComponent String_trim evs st)))).
    { induction evs as [|ev evs IH]; intros st Hs; [exact Hs|].
      cbn [Backend.run]. pose proof (backend_step_toast ev st Hs) as H1.
      destruct (Backend.step _ _ _ _ ev st) as [st1 out1]. specialize (IH st1 H1).
      destruct (Backend.run _ _ _ _ evs st1) as [st2 out2]. exact IH. }
    apply H. exact Hc.
Qed.
End ToastFacts.

Lemma toast_is_hidden_exactly_when_empty_witness :
  toast_consistent
    (Main.toast
       (fst (Main.run Sample.Number_toString Sample.Math_pow Sample.encodeURIComponent
               Sample.String_trim [Main.HospitalsLoaded (Api.Err "HTTP 500")]
               (Main.start Sample.page ∅)))).
Proof.
  apply (proj1 (toast_is_hidden_exactly_when_empty Sample.Number_toString
                  Sample.Math_pow Sample.encodeURIComponent Sample.String_trim)).
  split; intros; reflexivity.
Defined.

(** ** apiJson *)
Section FetchFacts.
Import Api Fetch.

(** A response whose status is not a success is a failure whatever its
    body holds, and the message of the failure is never blank: it is the
    text of the body, or "HTTP" and the status when the body is empty. *)
Theorem http_failure_has_a_message (A : Type) (status : nat) (text : string)
    (json : Result A) :
  exists m, apiJson (Responded false status text json) = Err m
            /\ m <> ""
            /\ (text <> "" -> m = text)
            /\ (text = "" -> m = "HTTP " +:+ JS.String_of_nat status).
Proof.
  eexists. split; [reflexivity|]. unfold JS.or_else, JS.truthy.
  destruct (String.eqb_spec text "") as [->|Hne]; cbn.
  - repeat split; [discriminate | contradiction].
  - repeat split; [exact Hne | intros E; contradiction].
Qed.
End FetchFacts.

(** ** The labels of the chart *)
Section LabelFacts.
Import Dom.

Lemma two_digits_width n :
  (n < 100)%nat -> String.length (JS.padStart0 2 (JS.String_of_nat n)) = 2%nat.
Proof.
  intros Hn.
  assert (H : forallb (fun n => Nat.eqb (String.length
                 (JS.padStart0 2 (JS.String_of_nat n))) 2) (seq 0 100) = true)
    by (vm_compute; reflexivity).
  rewrite List.forallb_forall in H. apply Nat.eqb_eq, H, in_seq. lia.
Qed.

Lemma two_digits_apart n m :
  (n < 100)%nat -> (m < 100)%nat ->
  JS.padStart0 2 (JS.String_of_nat n) = JS.padStart0 2 (JS.String_of_nat m) ->
  n = m.
Proof.
  intros Hn Hm E.
  assert (H : forallb (fun n => forallb (fun m =>
                implb (String.eqb (JS.padStart0 2 (JS.String_of_nat n))
                                  (JS.padStart0 2 (JS.String_of_nat m)))
                      (Nat.eqb n m)) (seq 0 100)) (seq 0 100) = true)
    by (vm_compute; reflexivity).
  rewrite List.forallb_forall in H.
  assert (In n (seq 0 100)) as Hn' by (apply in_seq; lia).
  specialize (H n Hn'). rewrite List.forallb_forall in H.
  assert (In m (seq 0 100)) as Hm' by (apply in_seq; lia).
  specialize (H m Hm'). rewrite E, String.eqb_refl in H. cbn in H.
  apply Nat.eqb_eq, H.
Qed.

Lemma two_chars s : String.length s = 2%nat -> exists a b, s = String a (String b "").
Proof.
  destruct s as [|a [|b [|c s]]]; cbn; intros H; try discriminate. eauto.
Qed.

(** While the hour is below 24 and the minute and second below 60, the
    label of a chart point is eight characters wide, and two readings of
    the clock get the same label only if they are the same reading. *)
Theorem time_label_is_fixed_width_and_faithful (t u : WallClock) :
  (hours t < 24)%nat -> (minutes t < 60)%nat -> (seconds t < 60)%nat ->
  (hours u < 24)%nat -> (minutes u < 60)%nat -> (seconds u < 60)%nat ->
  String.length (time_label t) = 8%nat
  /\ (time_label t = time_label u -> t = u).
Proof.
  intros Ht1 Ht2 Ht3 Hu1 Hu2 Hu3. destruct t as [h m s], u as [h' m' s'].
  cbn [hours minutes seconds] in *. unfold time_label. cbn [hours minutes seconds].
  destruct (two_chars _ (two_digits_width h ltac:(lia))) as (a1 & a2 & Ea).
  destruct (two_chars _ (two_digits_width m ltac:(lia))) as (b1 & b2 & Eb).
  destruct (two_chars _ (two_digits_width s ltac:(lia))) as (c1 & c2 & Ec).
  destruct (two_chars _ (two_digits_width h' ltac:(lia))) as (a1' & a2' & Ea').
  destruct (two_chars _ (two_digits_width m' ltac:(lia))) as (b1' & b2' & Eb').
  destruct (two_chars _ (two_digits_width s' ltac:(lia))) as (c1' & c2' & Ec').
  pose proof (two_digits_apart h h' ltac:(lia) ltac:(lia)) as Ih.
  pose proof (two_digits_apart m m' ltac:(lia) ltac:(lia)) as Im.
  pose proof (two_digits_apart s s' ltac:(lia) ltac:(lia)) as Is.
  rewrite Ea, Eb, Ec, Ea', Eb', Ec' in *. split; [reflexivity|].
  cbn. intros E. inversion E; subst.
  rewrite (Ih eq_refl), (Im eq_refl), (Is eq_refl). reflexivity.
Qed.
End LabelFacts.

Lemma time_label_is_fixed_width_and_faithful_witness :
  String.length (Dom.time_label (Dom.mkWallClock 23 59 59)) = 8%nat.
Proof.
  apply (proj1 (time_label_is_fixed_width_and_faithful
                  (Dom.mkWallClock 23 59 59) (Dom.mkWallClock 0 0 0)
                  ltac:(cbn; lia) ltac:(cbn; lia) ltac:(cbn; lia)
                  ltac:(cbn; lia) ltac:(cbn; lia) ltac:(cbn; lia))).
Defined.

(** ** One animation frame over the four read-outs *)
Section FrameLoopFacts.
Import Animator Common.
Variable Number_toString : float -> string.
Variable Math_pow : float -> float -> float.

Local Abbreviation frame := (Animator.frame Number_toString Math_pow).
Local Abbreviation on_animation_frame :=
  (Common.on_animation_frame Number_toString Math_pow).

Lemma get_set_field f g el fs :
  get_field f (set_field g el fs) = if decide (g = f) then el else get_field f fs.
Proof. destruct f, g; reflexivity. Qed.

Lemma tweens_set_field g el fs : tweens (set_field g el fs) = tweens fs.
Proof. destruct g; reflexivity. Qed.

Lemma get_set_tweens f tws fs : get_field f (set_tweens tws fs) = get_field f fs.
Proof. destruct f; reflexivity. Qed.

Lemma frame_loop now f (l : list (Field * Tween)) : forall acc,
  let r := foldl (fun acc '(g, tw) =>
             let '(el, again) := frame tw now (get_field g acc) in
             let acc := set_field g el acc in
             if again then set_tweens (tweens acc ++ [(g, tw)]) acc else acc)
           acc l in
  tweens r
  = tweens acc ++ List.filter (fun p => (progress (snd p) now <? 1)%float) l
  /\ dataset_value (get_field f r) = dataset_value (get_field f acc)
  /\ textContent (get_field f r)
     = match last (tweens_of f l) with
       | Some tw => textContent (fst (frame tw now (get_field f acc)))
       | None => textContent (get_field f acc)
       end.
Proof.
  intros acc. cbv zeta.
  match goal with |- context [foldl ?s acc l] => remember s as step eqn:Hstep end.
  revert acc. induction l as [|[g tw] l IH]; intros acc.
  - cbn. rewrite app_nil_r. auto.
  - cbn [foldl]. set (acc1 := step acc (g, tw)).
    destruct (IH acc1) as (Ht & Hd & Hx). rewrite Ht, Hd, Hx. clear IH Ht Hd Hx.
    assert (T1 : tweens acc1
                 = tweens acc ++ (if (progress tw now <? 1)%float then [(g, tw)] else [])).
    { subst acc1 step. unfold Animator.frame.
      destruct (progress tw now <? 1)%float; cbn.
      - rewrite tweens_set_field. reflexivity.
      - rewrite tweens_set_field, app_nil_r. reflexivity. }
    assert (G1 : get_field f acc1
                 = if decide (g = f) then fst (frame tw now (get_field g acc))
                   else get_field f acc).
    { subst acc1 step. unfold Animator.frame.
      destruct (progress tw now <? 1)%float; cbn;
        rewrite ?get_set_tweens, get_set_field; reflexivity. }
    rewrite T1, G1. unfold tweens_of. rewrite filter_cons. cbn [fst snd List.filter].
    split; [|split].
    + destruct (progress tw now <? 1)%float; rewrite <- app_assoc; reflexivity.
    + destruct (decide (g = f)) as [->|Hne]; reflexivity.
    + destruct (decide (g = f)) as [->|Hne].
      * rewrite fmap_cons, last_cons. cbn [snd].
        destruct (last (snd <$> filter (fun p => p.1 = f) l)); reflexivity.
      * reflexivity.
Qed.

(** One animation frame runs every registered closure once, in the order
    of registration.  The closures that stay registered are exactly those
    whose progress is below 1, still in that order; no [dataset.value] is
    touched; a read-out without a closure keeps its text, and where
    several animations of one read-out overlap, the text left on screen
    is the one written by the closure registered last. *)
Theorem newest_animation_writes_last now fs f :
  tweens (on_animation_frame now fs)
  = List.filter (fun p => (progress (snd p) now <? 1)%float) (tweens fs)
  /\ dataset_value (get_field f (on_animation_frame now fs))
     = dataset_value (get_field f fs)
  /\ textContent (get_field f (on_animation_frame now fs))
     = match last (tweens_of f (tweens fs)) with
       | Some tw => textContent (fst (frame tw now (get_field f fs)))
       | None => textContent (get_field f fs)
       end.
Proof.
  pose proof (frame_loop now f (tweens fs) (set_tweens [] fs)) as H.
  cbv zeta in H. rewrite get_set_tweens in H. exact H.
Qed.
End FrameLoopFacts.

(** An animation from 0 to 72 whose frames come at 100 ms and at 420 ms. *)
Lemma run_frames_exact_landing_witness :
  Animator.textContent
    (fst (Animator.run_frames Sample.Number_toString Sample.Math_pow
            (Animator.mkTween 0 72 1000 1) ([1100%float] ++ 1420%float :: [])
            (Animator.mkElement None "")))
  = JS.toFixed Sample.Number_toString 72 1.
Proof.
  apply (run_frames_exact_landing Sample.Number_toString Sample.Math_pow
           ltac:(vm_compute; reflexivity)
           (Animator.mkTween 0 72 1000 1) [1100%float] 1420%float []
           (Animator.mkElement None "")).
  - repeat constructor.
  - vm_compute. reflexivity.
  - vm_compute. reflexivity.
Defined.

(** The class "panel" is none of the four risk classes: an evaluation
    leaves it as it was. *)
Lemma risk_classes_follow_the_level_witness :
  "panel" ∈ Main.classList (Main.view Sample.after_critical)
  <-> "panel" ∈ Main.classList (Main.view Sample.after_low).
Proof.
  apply (proj2 (proj2 (proj2 (proj2
           (risk_classes_follow_the_level Sample.Number_toString
              (Sample.risk_at "Critical") (Main.mkAudioEnv 6000 true)
              Sample.after_low))))).
  unfold Main.risk_classes. rewrite !not_elem_of_union, !not_elem_of_singleton.
  repeat split; discriminate.
Defined.

(** A browser whose storage holds no theme starts dark. *)
Lemma theme_is_light_or_dark_and_stored_witness :
  Theme.dataset_theme (Theme.boot (Theme.mkState None ∅)) = Some "dark".
Proof.
  apply (proj2 theme_is_light_or_dark_and_stored (Theme.mkState None ∅)).
  cbn. rewrite lookup_empty. discriminate.
Defined.

(** A 503 with an empty body. *)
Lemma http_failure_has_a_message_witness :
  exists m, Fetch.apiJson (Fetch.Responded false 503 "" (Api.Err "Unexpected end of JSON input"
                             : Api.Result nat)) = Api.Err m
            /\ m = "HTTP 503".
Proof.
  destruct (http_failure_has_a_message nat 503 "" (Api.Err "Unexpected end of JSON input"))
    as (m & E & _ & _ & H).
  exists m. split; [exact E|]. rewrite (H eq_refl). vm_compute. reflexivity.
Defined.
